(** * RNOKPP: the Ukrainian taxpayer number codec of [rnokpp/__init__.py]

    A shallow embedding of the Python module and the properties of its
    parser, checksum, decoder and generators.

    Python integers are unbounded, so they are [Z]; [%] with a positive
    divisor is the floor modulo, which is [Z.modulo].  A [str] is a
    sequence of Unicode code points.  Exceptions are an error type and a
    [result] monad; the process-wide random source is an explicit tape
    threaded through the generators; the clock is a parameter [today]. *)

From Stdlib Require Import ZArith Lia String Ascii.
From stdpp Require Import base tactics option list numbers.

Local Open Scope Z_scope.
Set Warnings "-clear-no-such-hyp".

(** ** The Python runtime the module relies on *)

Module Py.

(** *** Strings *)

Definition char := Z.
Definition str := list char.

(** An ASCII literal as a Python string. *)
Definition str_of_string (s : string) : str :=
  (λ a, Z.of_N (N_of_ascii a)) <$> list_ascii_of_string s.

(** *** Exceptions *)

(** A calendar date, by its proleptic Gregorian ordinal
    ([date.toordinal()], day 1 is 0001-01-01). *)
Record date := Date { toordinal : Z }.

(** The exception classes of the module (all derive from
    [RNOKPPError]) ... *)
Inductive RNOKPPError :=
| InvalidControlDigit
| NumberGreaterThanZero
| MoreThan10Digits
| LessThan10Digits
| StringDoesNotConsistOfDigits
| NotAllowedDate (d : date)
| DateInFuture (d : date).

(** ... and the built-in ones the code can meet. *)
Inductive exn :=
| RNOKPP (e : RNOKPPError)
| ValueError
| IndexError
| OverflowError.

Definition is_RNOKPPError (e : exn) : bool :=
  match e with RNOKPP _ => true | _ => false end.

Definition is_ValueError (e : exn) : bool :=
  match e with ValueError => true | _ => false end.

Inductive result (A : Type) :=
| Ok (a : A)
| Raise (e : exn).
Arguments Ok {A} a.
Arguments Raise {A} e.

#[global] Instance result_fmap : FMap result := λ A B f m,
  match m with Ok a => Ok (f a) | Raise e => Raise e end.
#[global] Instance result_ret : MRet result := λ A a, Ok a.
#[global] Instance result_bind : MBind result := λ A B f m,
  match m with Ok a => f a | Raise e => Raise e end.

(** [try: body / except <class>: handler]. *)
Definition try_except {A} (body : result A) (catches : exn → bool)
    (handler : result A) : result A :=
  match body with
  | Ok a => Ok a
  | Raise e => if catches e then handler else Raise e
  end.

(** [l[i]] for a non-negative constant [i]. *)
Definition index {A} (l : list A) (i : nat) : result A :=
  match l !! i with Some x => Ok x | None => Raise IndexError end.

(** *** [int(c)] on a one-character string

    [int] maps a character with the Unicode decimal-digit property to
    its value and raises [ValueError] on every other single character
    (white space, signs and the underscore included).  The decimal
    digits come in runs of ten; this is the table of the code points of
    the zeros of those runs (Unicode 14, CPython 3.11). *)
Definition decimal_zeros : list Z :=
  [48; 1632; 1776; 1984; 2406; 2534; 2662; 2790; 2918; 3046; 3174; 3302;
   3430; 3558; 3664; 3792; 3872; 4160; 4240; 6112; 6160; 6470; 6608; 6784;
   6800; 6992; 7088; 7232; 7248; 42528; 43216; 43264; 43472; 43504; 43600;
   44016; 65296; 66720; 68912; 69734; 69872; 69942; 70096; 70384; 70736;
   70864; 71248; 71360; 71472; 71904; 72016; 72784; 73040; 73120; 92768;
   92864; 93008; 120782; 120792; 120802; 120812; 120822; 123200; 123632;
   125264; 130032].

Definition in_run (c z : Z) : bool := (z <=? c) && (c <? z + 10).

Definition decimal_value (c : char) : option Z :=
  match find (in_run c) decimal_zeros with
  | Some z => Some (c - z)
  | None => None
  end.

Definition int_of_char (c : char) : result Z :=
  match decimal_value c with
  | Some v => Ok v
  | None => Raise ValueError
  end.

Definition is_ascii_digit (c : char) : bool := (48 <=? c) && (c <=? 57).

(** *** [str(n)] and [f"{n:05d}"] *)

Fixpoint dec_digits (fuel : nat) (n : Z) (acc : str) : str :=
  match fuel with
  | O => acc
  | S fuel' =>
      let acc' := (48 + n mod 10) :: acc in
      if n <? 10 then acc' else dec_digits fuel' (n / 10) acc'
  end.

(** The decimal digits of [n >= 0]; a number has no more decimal than
    binary digits. *)
Definition dec_of_nonneg (n : Z) : str :=
  dec_digits (S (Z.to_nat (Z.log2 n))) n [].

Definition str_of_int (n : Z) : str :=
  if n <? 0 then 45 :: dec_of_nonneg (- n) else dec_of_nonneg n.

Definition zero_pad (width : nat) (s : str) : str :=
  replicate (width - length s) 48 ++ s.

(** Format spec [05d]: sign-aware zero padding to width 5. *)
Definition format_05d (n : Z) : str :=
  if n <? 0 then 45 :: zero_pad 4 (dec_of_nonneg (- n))
  else zero_pad 5 (dec_of_nonneg n).

(** *** [datetime.date] *)

Definition is_leap (y : Z) : bool :=
  (y mod 4 =? 0) && (negb (y mod 100 =? 0) || (y mod 400 =? 0)).

Definition days_before_year (y : Z) : Z :=
  let y := y - 1 in y * 365 + y / 4 - y / 100 + y / 400.

Definition days_before_month (y m : Z) : Z :=
  nth (Z.to_nat m)
    [-1; 0; 31; 59; 90; 120; 151; 181; 212; 243; 273; 304; 334] 0
  + (if (2 <? m) && is_leap y then 1 else 0).

Definition ymd2ord (y m d : Z) : Z :=
  days_before_year y + days_before_month y m + d.

(** [date(y, m, d)], for a day that exists. *)
Definition date_of_ymd (y m d : Z) : date := Date (ymd2ord y m d).

Definition MAXORDINAL : Z := 3652059.

Definition date_lt (a b : date) : bool := toordinal a <? toordinal b.

(** [(a - b).days] *)
Definition date_diff_days (a b : date) : Z := toordinal a - toordinal b.

(** [d + timedelta(days=n)]: [OverflowError] when the day falls outside
    0001-01-01 .. 9999-12-31 (a [timedelta] too large to build lands
    outside as well). *)
Definition date_add_days (d : date) (n : Z) : result date :=
  let o := toordinal d + n in
  if (1 <=? o) && (o <=? MAXORDINAL) then Ok (Date o)
  else Raise OverflowError.

(** [date.fromordinal]: the year, month and day of an ordinal, by the
    400-, 100-, 4- and 1-year cycles. *)
Definition DAYS_BEFORE_MONTH : list Z :=
  [-1; 0; 31; 59; 90; 120; 151; 181; 212; 243; 273; 304; 334].

Definition DAYS_IN_MONTH : list Z :=
  [-1; 31; 28; 31; 30; 31; 30; 31; 31; 30; 31; 30; 31].

Definition ord2ymd (n : Z) : Z * Z * Z :=
  let n := n - 1 in
  let n400 := n / 146097 in
  let n := n mod 146097 in
  let year := n400 * 400 + 1 in
  let n100 := n / 36524 in
  let n := n mod 36524 in
  let n4 := n / 1461 in
  let n := n mod 1461 in
  let n1 := n / 365 in
  let n := n mod 365 in
  let year := year + n100 * 100 + n4 * 4 + n1 in
  if (n1 =? 4) || (n100 =? 4) then (year - 1, 12, 31)
  else
    let leapyear := (n1 =? 3) && (negb (n4 =? 24) || (n100 =? 3)) in
    let month := Z.shiftr (n + 50) 5 in
    let preceding :=
      nth (Z.to_nat month) DAYS_BEFORE_MONTH 0
      + (if (2 <? month) && leapyear then 1 else 0) in
    if n <? preceding then
      let month := month - 1 in
      let preceding :=
        preceding - (nth (Z.to_nat month) DAYS_IN_MONTH 0
                     + (if (month =? 2) && leapyear then 1 else 0)) in
      (year, month, n - preceding + 1)
    else (year, month, n - preceding + 1).

(** [d.strftime('%d.%m.%Y')]: day and month on two digits, the year in
    full (the C library prints it unpadded). *)
Definition strftime_dmY (d : date) : str :=
  let '(year, month, day) := ord2ymd (toordinal d) in
  zero_pad 2 (dec_of_nonneg day) ++ [46] ++ zero_pad 2 (dec_of_nonneg month)
  ++ [46] ++ dec_of_nonneg year.

(** *** [random]

    The tape holds the raw outcome of every draw to come; a draw reads
    its head. *)
Definition tape := nat → Z.

Definition Rand (A : Type) : Type := tape → result (A * tape).

#[global] Instance Rand_ret : MRet Rand := λ A a t, Ok (a, t).
#[global] Instance Rand_bind : MBind Rand := λ A B f m t,
  match m t with Ok (a, t') => f a t' | Raise e => Raise e end.

Definition lift {A} (r : result A) : Rand A := λ t,
  match r with Ok a => Ok (a, t) | Raise e => Raise e end.

Definition draw : Rand Z := λ t, Ok (t 0%nat, λ n, t (S n)).

(** [random.randint(a, b)] *)
Definition randint (a b : Z) : Rand Z :=
  if b <? a then lift (Raise ValueError)
  else r ← draw; mret (a + r mod (b - a + 1)).

(** [random.choice(seq)] *)
Definition choice {A} (seq : list A) : Rand A :=
  match seq with
  | [] => lift (Raise IndexError)
  | _ => r ← draw; lift (index seq (Z.to_nat (r mod Z.of_nat (length seq))))
  end.

(** The result of a computation, the tape left over dropped. *)
Definition run {A} (m : Rand A) (t : tape) : result A :=
  match m t with Ok (a, _) => Ok a | Raise e => Raise e end.

(** The tape that starts with the draws of a list and goes on with 0. *)
Definition tape_of (draws : list Z) : tape := λ n, nth n draws 0.

End Py.
Import Py.

(** ** The module *)

Inductive Gender := MALE | FEMALE.

Definition Gender_is_male (g : Gender) : bool :=
  match g with MALE => true | FEMALE => false end.

Definition Gender_is_female (g : Gender) : bool :=
  match g with FEMALE => true | MALE => false end.

Definition Gender_random : Rand Gender := choice [MALE; FEMALE].

Record Details := mkDetails {
  valid : bool;
  gender : Gender;
  birthday : date
}.

(** [gender.value] *)
Definition Gender_value (g : Gender) : str :=
  match g with
  | MALE => str_of_string "male"
  | FEMALE => str_of_string "female"
  end.

(** [Details.__str__] *)
Definition Details_str (self : Details) : str :=
  if negb (valid self) then str_of_string "invalid"
  else str_of_string "valid, " ++ Gender_value (gender self)
       ++ str_of_string ", " ++ strftime_dmY (birthday self).

Definition BASE_DATE : date := date_of_ymd 1900 1 1.
Definition MALE_DIGITS : list Z := [1; 3; 5; 7; 9].
Definition FEMALE_DIGITS : list Z := [0; 2; 4; 6; 8].

Definition raise {A} (e : RNOKPPError) : result A := Raise (RNOKPP e).

Definition _parse_rnokpp (rnokpp : str) : result (list Z) :=
  digits ← try_except (mapM int_of_char rnokpp) is_ValueError
             (raise StringDoesNotConsistOfDigits);
  if (10 <? length digits)%nat then raise MoreThan10Digits
  else if (length digits <? 10)%nat then raise LessThan10Digits
  else mret digits.

Definition _calculate_control_digit (digits : list Z) : result Z :=
  d0 ← index digits 0; let checksum := d0 * -1 in
  d1 ← index digits 1; let checksum := checksum + d1 * 5 in
  d2 ← index digits 2; let checksum := checksum + d2 * 7 in
  d3 ← index digits 3; let checksum := checksum + d3 * 9 in
  d4 ← index digits 4; let checksum := checksum + d4 * 4 in
  d5 ← index digits 5; let checksum := checksum + d5 * 6 in
  d6 ← index digits 6; let checksum := checksum + d6 * 10 in
  d7 ← index digits 7; let checksum := checksum + d7 * 5 in
  d8 ← index digits 8; let checksum := checksum + d8 * 7 in
  mret ((checksum mod 11) mod 10).

Definition get_details (rnokpp : str) : result Details :=
  digits ← _parse_rnokpp rnokpp;
  gender_digit ← index digits 8;
  control_digit ← index digits 9;
  calculated_control ← _calculate_control_digit (take 9 digits);
  if negb (control_digit =? calculated_control) then raise InvalidControlDigit
  else
    let gender := if gender_digit mod 2 =? 1 then MALE else FEMALE in
    d0 ← index digits 0; d1 ← index digits 1; d2 ← index digits 2;
    d3 ← index digits 3; d4 ← index digits 4;
    let days_since_base := d0 * 10000 + d1 * 1000 + d2 * 100 + d3 * 10 + d4 in
    let days_since_base := days_since_base - 1 in
    birthday ← date_add_days BASE_DATE days_since_base;
    mret (mkDetails true gender birthday).

Definition is_valid (rnokpp : str) : result bool :=
  try_except (details ← get_details rnokpp; mret (valid details))
    is_RNOKPPError (mret false).

Definition is_male (rnokpp : str) : result bool :=
  details ← get_details rnokpp; mret (Gender_is_male (gender details)).

Definition is_female (rnokpp : str) : result bool :=
  details ← get_details rnokpp; mret (Gender_is_female (gender details)).

Definition get_gender (rnokpp : str) : result Gender :=
  details ← get_details rnokpp; mret (gender details).

Definition generate_rnokpp (today : date) (d : date) (g : Gender) : Rand str :=
  if date_lt d BASE_DATE then lift (raise (NotAllowedDate d))
  else if date_lt today d then lift (raise (DateInFuture d))
  else
    let days_since_base := date_diff_days d BASE_DATE in
    let days_since_base := days_since_base + 1 in
    let rnokpp := format_05d days_since_base in
    r1 ← randint 0 9; let rnokpp := rnokpp ++ str_of_int r1 in
    r2 ← randint 0 9; let rnokpp := rnokpp ++ str_of_int r2 in
    r3 ← randint 0 9; let rnokpp := rnokpp ++ str_of_int r3 in
    gd ← match g with
         | MALE => choice MALE_DIGITS
         | FEMALE => choice FEMALE_DIGITS
         end;
    let rnokpp := rnokpp ++ str_of_int gd in
    digits ← lift (mapM int_of_char rnokpp);
    control ← lift (_calculate_control_digit digits);
    mret (rnokpp ++ str_of_int control).

Definition generate_random_rnokpp (today : date) : Rand str :=
  let days_range := date_diff_days today BASE_DATE in
  random_days ← randint 0 days_range;
  random_date ← lift (date_add_days BASE_DATE random_days);
  g ← Gender_random;
  generate_rnokpp today random_date g.

(** [[generate_random_rnokpp() for _ in range(n)]] *)
Fixpoint generate_list (today : date) (n : nat) : Rand (list str) :=
  match n with
  | O => mret []
  | S n' =>
      s ← generate_random_rnokpp today;
      rest ← generate_list today n';
      mret (s :: rest)
  end.

Definition generate_random_rnokpp_n (today : date) (count : Z)
    : Rand (list str) :=
  if count <=? 0 then lift (raise NumberGreaterThanZero)
  else generate_list today (Z.to_nat count).

(** ** Notions the properties are stated with *)

(** The checksum as the specification words it: the digits weighted
    position by position, summed, reduced modulo 11 and then modulo 10. *)
Definition WEIGHTS : list Z := [-1; 5; 7; 9; 4; 6; 10; 5; 7].

Definition weighted_sum (digits : list Z) : Z :=
  foldr Z.add 0 (zip_with Z.mul WEIGHTS digits).

Definition is_digit (d : Z) : Prop := 0 ≤ d ≤ 9.

(** A character [int] does not convert. *)
Definition not_decimal (c : char) : Prop := decimal_value c = None.

(** The Arabic-Indic spelling of 3652504575. *)
Definition arabic_indic_sample : str :=
  [1635; 1638; 1637; 1634; 1637; 1632; 1636; 1637; 1639; 1637].

(** The five leading digits read as a day count. *)
Definition day_count (d0 d1 d2 d3 d4 : Z) : Z :=
  d0 * 10000 + d1 * 1000 + d2 * 100 + d3 * 10 + d4.

(** The date [n] days after (before, for negative [n]) a date. *)
Definition days_after (d : date) (n : Z) : date := Date (toordinal d + n).

(** The ASCII characters of a list of digits. *)
Definition chars (ds : list Z) : str := (λ d, 48 + d) <$> ds.

(** The tape after [k] draws. *)
Definition after (k : nat) (t : tape) : tape := λ n, t (k + n)%nat.

(** The last day whose day count has five digits, and the day after. *)
Definition LAST_DATE : date := date_of_ymd 2173 10 14.
Definition OVERFLOW_DATE : date := date_of_ymd 2173 10 15.

(** The digit of a gender that [random.choice] picks on a raw draw. *)
Definition gender_digit (g : Gender) (raw : Z) : Z :=
  2 * (raw mod 5) + match g with MALE => 1 | FEMALE => 0 end.

(** The list with the cells [i] and [i + 1] exchanged. *)
Definition swap_adjacent (i : nat) (l : list Z) : list Z :=
  match l !! i, l !! S i with
  | Some a, Some b => <[i := b]> (<[S i := a]> l)
  | _, _ => l
  end.

(** The days the five leading digits can spell: 1899-12-31 (count 0) to
    2173-10-14 (count 99999). *)
Definition FIRST_DECODED : date := date_of_ymd 1899 12 31.

(** Takes the bounds of the digits of a list apart for [lia]. *)
Ltac digit_bounds :=
  repeat match goal with
         | H : Forall _ (_ :: _) |- _ => inversion_clear H
         end;
  unfold is_digit in *; lia.

(** ** The vectors of the test suite *)

Example test_get_details_male :
  get_details (str_of_string "3652504575")
  = Ok (mkDetails true MALE (date_of_ymd 2000 1 1)).
Proof. vm_compute. reflexivity. Qed.

Example test_is_male :
  is_male (str_of_string "3652504575") = Ok true
  ∧ is_male (str_of_string "3068208400") = Ok false
  ∧ is_female (str_of_string "3068208400") = Ok true
  ∧ get_gender (str_of_string "3652504575") = Ok MALE
  ∧ is_male (str_of_string "invalid") = Raise (RNOKPP StringDoesNotConsistOfDigits).
Proof. repeat split; vm_compute; reflexivity. Qed.

Example test_get_details_female :
  gender <$> get_details (str_of_string "3068208400") = Ok FEMALE.
Proof. vm_compute. reflexivity. Qed.

(** ** Facts about the runtime *)

Section runtime.

Lemma in_run_spec c z : in_run c z = true ↔ z ≤ c < z + 10.
Proof. unfold in_run. rewrite andb_true_iff, Z.leb_le, Z.ltb_lt. tauto. Qed.

Lemma decimal_value_Some c v :
  decimal_value c = Some v →
  ∃ z, In z decimal_zeros ∧ z ≤ c < z + 10 ∧ v = c - z.
Proof.
  unfold decimal_value. destruct (find _ _) as [z|] eqn:Hfind; [|done].
  intros [= <-]. apply find_some in Hfind as [Hin Hrun].
  apply in_run_spec in Hrun. eauto.
Qed.

(** Whatever [int] accepts is worth a digit. *)
Lemma decimal_value_range c v : decimal_value c = Some v → 0 ≤ v ≤ 9.
Proof. intros (z & _ & ? & ->)%decimal_value_Some. lia. Qed.

Lemma decimal_value_ascii d : 0 ≤ d ≤ 9 → decimal_value (48 + d) = Some d.
Proof.
  intros Hd. unfold decimal_value, decimal_zeros. cbn [find].
  assert (in_run (48 + d) 48 = true) as -> by (apply in_run_spec; lia).
  f_equal. lia.
Qed.

Lemma decimal_zeros_above_ascii z : In z decimal_zeros → z = 48 ∨ 1632 ≤ z.
Proof.
  assert (forallb (λ z, (z =? 48) || (1632 <=? z)) decimal_zeros = true)
    as Hall by (vm_compute; reflexivity).
  rewrite forallb_forall in Hall. intros Hin. specialize (Hall z Hin).
  apply orb_true_iff in Hall as [?%Z.eqb_eq | ?%Z.leb_le]; auto.
Qed.

(** Among the ASCII characters [int] accepts the digits 0-9 and nothing
    else. *)
Lemma decimal_value_ascii_only c :
  c < 128 → is_Some (decimal_value c) ↔ is_ascii_digit c = true.
Proof.
  intros Hc. unfold is_ascii_digit.
  rewrite andb_true_iff, Z.leb_le, Z.leb_le. split.
  - intros [v (z & Hin & Hz & _)%decimal_value_Some].
    apply decimal_zeros_above_ascii in Hin as [-> | ?]; lia.
  - intros Hd. exists (c - 48).
    replace c with (48 + (c - 48)) at 1 by lia.
    apply decimal_value_ascii. lia.
Qed.

Lemma int_of_char_Ok c v : int_of_char c = Ok v ↔ decimal_value c = Some v.
Proof. unfold int_of_char. destruct (decimal_value c); naive_solver. Qed.

Lemma int_of_char_Raise c e :
  int_of_char c = Raise e ↔ decimal_value c = None ∧ e = ValueError.
Proof. unfold int_of_char. destruct (decimal_value c); naive_solver. Qed.

(** The comprehension [[int(c) for c in s]]. *)
Lemma scan_cons c s :
  mapM int_of_char (c :: s)
  = (y ← int_of_char c; k ← mapM int_of_char s; mret (y :: k)).
Proof. reflexivity. Qed.

Lemma scan_Ok s ds :
  mapM int_of_char s = Ok ds ↔ Forall2 (λ c d, decimal_value c = Some d) s ds.
Proof.
  revert ds. induction s as [|c s IH]; intros ds.
  - split; [intros [= <-]; constructor | intros Hnil; by inversion Hnil].
  - rewrite scan_cons. split.
    + destruct (int_of_char c) as [v|] eqn:Hc; [|done]. cbn.
      destruct (mapM int_of_char s) as [k|] eqn:Hs; [|done]. cbn.
      intros [= <-]. constructor; [by apply int_of_char_Ok | by apply IH].
    + inversion 1 as [|? d ? k Hd Hk]; subst.
      apply int_of_char_Ok in Hd as ->. apply IH in Hk as ->. done.
Qed.

Lemma scan_Raise s e :
  mapM int_of_char s = Raise e ↔
  Exists (λ c, decimal_value c = None) s ∧ e = ValueError.
Proof.
  induction s as [|c s IH].
  - split; [done | by intros [?%Exists_nil _]].
  - rewrite scan_cons, Exists_cons.
    destruct (int_of_char c) as [v|e'] eqn:Hc; cbn.
    + apply int_of_char_Ok in Hc.
      destruct (mapM int_of_char s) as [k|e'] eqn:Hs; cbn.
      * split; [done|]. intros [[?|Hex] ->]; [congruence|].
        by pose proof (proj2 IH (conj Hex eq_refl)).
      * split; [intros [= <-]|]; naive_solver.
    + apply int_of_char_Raise in Hc as [Hc ->]. naive_solver.
Qed.

Lemma scan_total s :
  (∃ ds, mapM int_of_char s = Ok ds) ∨ mapM int_of_char s = Raise ValueError.
Proof.
  destruct (mapM int_of_char s) as [ds|e] eqn:Hs; [eauto|].
  apply scan_Raise in Hs as [_ ->]. auto.
Qed.

Lemma scan_digits s ds :
  mapM int_of_char s = Ok ds → length ds = length s ∧ Forall (λ d, 0 ≤ d ≤ 9) ds.
Proof.
  intros Hs%scan_Ok. split; [symmetry; by eapply Forall2_length|].
  induction Hs; constructor; eauto using decimal_value_range.
Qed.

End runtime.

(** ** The control digit *)

Section control_digit.

(** Only the first nine cells are read. *)
Lemma control_digit_nine d0 d1 d2 d3 d4 d5 d6 d7 d8 rest :
  _calculate_control_digit (d0 :: d1 :: d2 :: d3 :: d4 :: d5 :: d6 :: d7 :: d8 :: rest)
  = Ok ((d0 * -1 + d1 * 5 + d2 * 7 + d3 * 9 + d4 * 4 + d5 * 6 + d6 * 10
         + d7 * 5 + d8 * 7) mod 11 mod 10).
Proof. reflexivity. Qed.

Lemma weighted_sum_nine d0 d1 d2 d3 d4 d5 d6 d7 d8 rest :
  weighted_sum (d0 :: d1 :: d2 :: d3 :: d4 :: d5 :: d6 :: d7 :: d8 :: rest)
  = d0 * -1 + d1 * 5 + d2 * 7 + d3 * 9 + d4 * 4 + d5 * 6 + d6 * 10
    + d7 * 5 + d8 * 7.
Proof. unfold weighted_sum, WEIGHTS. cbn [zip_with foldr]. lia. Qed.

Lemma control_digit_weighted digits :
  (9 ≤ length digits)%nat →
  _calculate_control_digit digits = Ok (weighted_sum digits mod 11 mod 10).
Proof.
  intros Hlen. do 9 (destruct digits as [|? digits]; [cbn in Hlen; lia|]).
  by rewrite control_digit_nine, weighted_sum_nine.
Qed.

Lemma control_digit_short digits :
  (length digits < 9)%nat → _calculate_control_digit digits = Raise IndexError.
Proof.
  intros Hlen.
  do 9 (destruct digits as [|? digits]; [reflexivity|]). cbn in Hlen. lia.
Qed.

Lemma mod_11_10_range z : 0 ≤ z mod 11 ≤ 10 ∧ 0 ≤ z mod 11 mod 10 ≤ 9.
Proof. pose proof (Z.mod_pos_bound z 11). pose proof (Z.mod_pos_bound (z mod 11) 10). lia. Qed.

(** C4.  On nine digits the checksum returns one value, a function of
    its input alone: the weighted sum with the weights
    [-1, 5, 7, 9, 4, 6, 10, 5, 7], reduced modulo 11 to a remainder in
    [0, 10] whatever the sign of the sum, then modulo 10; the value lies in
    [0, 9]. *)
Theorem control_digit_deterministic_in_range (digits : list Z) :
  length digits = 9%nat →
  Forall is_digit digits →
  ∃ c, _calculate_control_digit digits = Ok c
       ∧ (∀ digits', digits' = digits → _calculate_control_digit digits' = Ok c)
       ∧ c = (weighted_sum digits mod 11) mod 10
       ∧ 0 ≤ weighted_sum digits mod 11 ≤ 10
       ∧ 0 ≤ c ≤ 9.
Proof.
  intros Hlen _. exists (weighted_sum digits mod 11 mod 10).
  assert (_calculate_control_digit digits
          = Ok (weighted_sum digits mod 11 mod 10)) as Hc
    by (apply control_digit_weighted; lia).
  repeat split; try apply mod_11_10_range; [done|by intros ? ->].
Qed.

(** A leading 9 alone makes the sum negative: it is -9, whose remainder
    modulo 11 is 2. *)
Lemma control_digit_deterministic_in_range_witness :
  ∃ c, _calculate_control_digit [9; 0; 0; 0; 0; 0; 0; 0; 0] = Ok c
       ∧ (∀ digits', digits' = [9; 0; 0; 0; 0; 0; 0; 0; 0] →
            _calculate_control_digit digits' = Ok c)
       ∧ c = (weighted_sum [9; 0; 0; 0; 0; 0; 0; 0; 0] mod 11) mod 10
       ∧ 0 ≤ weighted_sum [9; 0; 0; 0; 0; 0; 0; 0; 0] mod 11 ≤ 10
       ∧ 0 ≤ c ≤ 9.
Proof.
  apply (control_digit_deterministic_in_range [9; 0; 0; 0; 0; 0; 0; 0; 0]).
  - reflexivity.
  - repeat constructor; unfold is_digit; lia.
Defined.

Example control_digit_negative_sum :
  weighted_sum [9; 0; 0; 0; 0; 0; 0; 0; 0] = -9
  ∧ _calculate_control_digit [9; 0; 0; 0; 0; 0; 0; 0; 0] = Ok 2.
Proof. split; reflexivity. Qed.

(** C5.  A nine-digit prefix whose weighted sum is 10 modulo 11 has the
    control digit 0. *)
Theorem control_digit_collapse (digits : list Z) :
  length digits = 9%nat →
  Forall is_digit digits →
  weighted_sum digits mod 11 = 10 →
  _calculate_control_digit digits = Ok 0.
Proof.
  intros Hlen _ Hten. rewrite control_digit_weighted by lia.
  by rewrite Hten.
Qed.

Lemma control_digit_collapse_witness :
  weighted_sum [0; 2; 0; 0; 0; 0; 0; 0; 0] mod 11 = 10
  ∧ _calculate_control_digit [0; 2; 0; 0; 0; 0; 0; 0; 0] = Ok 0.
Proof.
  split; [reflexivity|].
  apply (control_digit_collapse [0; 2; 0; 0; 0; 0; 0; 0; 0]).
  - reflexivity.
  - repeat constructor; unfold is_digit; lia.
  - reflexivity.
Defined.

End control_digit.

(** ** Parsing *)

Section parsing.

Lemma parse_scan_fails s :
  Exists not_decimal s → _parse_rnokpp s = raise StringDoesNotConsistOfDigits.
Proof.
  intros Hex. unfold _parse_rnokpp.
  by rewrite (proj2 (scan_Raise s ValueError) (conj Hex eq_refl)).
Qed.

Lemma parse_scan_passes s ds :
  mapM int_of_char s = Ok ds →
  _parse_rnokpp s =
    if (10 <? length s)%nat then raise MoreThan10Digits
    else if (length s <? 10)%nat then raise LessThan10Digits
    else Ok ds.
Proof.
  intros Hs. unfold _parse_rnokpp. rewrite Hs. cbn.
  by destruct (scan_digits s ds Hs) as [-> _].
Qed.

Lemma all_decimal_scan s :
  ¬ Exists not_decimal s → ∃ ds, mapM int_of_char s = Ok ds.
Proof.
  intros Hall. destruct (scan_total s) as [?|Hraise]; [done|].
  apply scan_Raise in Hraise as [? _]. done.
Qed.

Lemma parse_Ok s ds :
  _parse_rnokpp s = Ok ds ↔
  mapM int_of_char s = Ok ds ∧ length s = 10%nat.
Proof.
  split.
  - intros Hp. destruct (scan_total s) as [[ds' Hs]|Hs].
    + rewrite (parse_scan_passes _ _ Hs) in Hp.
      destruct (Nat.ltb_spec 10 (length s)); [done|].
      destruct (Nat.ltb_spec (length s) 10); [done|].
      injection Hp as ->. split; [done|lia].
    + unfold _parse_rnokpp in Hp. by rewrite Hs in Hp.
  - intros [Hs Hlen]. rewrite (parse_scan_passes _ _ Hs), Hlen. done.
Qed.

Lemma parse_digit_error s :
  _parse_rnokpp s = raise StringDoesNotConsistOfDigits ↔ Exists not_decimal s.
Proof.
  split; [|apply parse_scan_fails].
  intros Hp. destruct (scan_total s) as [[ds Hs]|Hs].
  - rewrite (parse_scan_passes _ _ Hs) in Hp. by repeat case_match.
  - by apply scan_Raise in Hs as [? _].
Qed.

(** What the parser can raise. *)
Lemma parse_raises s e :
  _parse_rnokpp s = Raise e →
  e = RNOKPP StringDoesNotConsistOfDigits ∨ e = RNOKPP MoreThan10Digits
  ∨ e = RNOKPP LessThan10Digits.
Proof.
  intros Hp. destruct (scan_total s) as [[ds Hs]|Hs].
  - rewrite (parse_scan_passes _ _ Hs) in Hp. unfold raise in Hp.
    repeat case_match; simplify_eq; auto.
  - unfold _parse_rnokpp in Hp. rewrite Hs in Hp. cbn in Hp.
    unfold raise in Hp. simplify_eq; auto.
Qed.

(** The scan comes first, the two length tests after it. *)
Lemma parse_scan_then_length (s : str) :
  (Exists not_decimal s →
     _parse_rnokpp s = raise StringDoesNotConsistOfDigits)
  ∧ (_parse_rnokpp s = raise MoreThan10Digits ↔
       ¬ Exists not_decimal s ∧ (10 < length s)%nat)
  ∧ (_parse_rnokpp s = raise LessThan10Digits ↔
       ¬ Exists not_decimal s ∧ (length s < 10)%nat).
Proof.
  split; [apply parse_scan_fails|].
  split; split.
  - intros Hp. destruct (scan_total s) as [[ds Hs]|Hs].
    + split; [intros Hex; by rewrite (parse_scan_fails _ Hex) in Hp|].
      rewrite (parse_scan_passes _ _ Hs) in Hp.
      destruct (Nat.ltb_spec 10 (length s)); [done|]. by case_match.
    + apply scan_Raise in Hs as [Hex _]. by rewrite (parse_scan_fails _ Hex) in Hp.
  - intros [Hall Hlen]. apply all_decimal_scan in Hall as [ds Hs].
    rewrite (parse_scan_passes _ _ Hs).
    by destruct (Nat.ltb_spec 10 (length s)); [|lia].
  - intros Hp. destruct (scan_total s) as [[ds Hs]|Hs].
    + split; [intros Hex; by rewrite (parse_scan_fails _ Hex) in Hp|].
      rewrite (parse_scan_passes _ _ Hs) in Hp.
      destruct (Nat.ltb_spec 10 (length s)); [done|].
      by destruct (Nat.ltb_spec (length s) 10).
    + apply scan_Raise in Hs as [Hex _]. by rewrite (parse_scan_fails _ Hex) in Hp.
  - intros [Hall Hlen]. apply all_decimal_scan in Hall as [ds Hs].
    rewrite (parse_scan_passes _ _ Hs).
    destruct (Nat.ltb_spec 10 (length s)); [lia|].
    by destruct (Nat.ltb_spec (length s) 10); [|lia].
Qed.

(** C6, as the code has it.  The scan of the characters comes before the
    length check, and a digit is a character that [int] converts: a string
    with a character that [int] does not convert raises the digit error
    whatever its length, and the two length errors are raised exactly on
    the strings of such digits only, of more and of fewer than ten
    characters.  An ASCII character is refused by the scan exactly when it
    is not one of 0-9. *)
Theorem parse_precedence (s : str) :
  (Exists not_decimal s →
     _parse_rnokpp s = raise StringDoesNotConsistOfDigits)
  ∧ (_parse_rnokpp s = raise MoreThan10Digits ↔
       ¬ Exists not_decimal s ∧ (10 < length s)%nat)
  ∧ (_parse_rnokpp s = raise LessThan10Digits ↔
       ¬ Exists not_decimal s ∧ (length s < 10)%nat)
  ∧ Forall (λ c, c < 128 → (not_decimal c ↔ is_ascii_digit c = false)) s.
Proof.
  destruct (parse_scan_then_length s) as (Hscan & Hmore & Hless).
  repeat (split; [assumption|]).
  apply Forall_forall. intros c _ Hc. unfold not_decimal.
  pose proof (decimal_value_ascii_only c Hc) as Hiff.
  rewrite <- not_true_iff_false, <- Hiff, eq_None_not_Some. done.
Qed.

(** C6 as stated, with the ASCII digits 0-9 for digits, fails: three
    Arabic-Indic digits are no ASCII digits, yet the error is the length
    error for too few characters and not the digit error; eleven of them
    give the length error for too many. *)
Lemma parse_length_error_on_non_ascii_digits :
  Forall (λ c, is_ascii_digit c = false) [1635; 1638; 1637]
  ∧ _parse_rnokpp [1635; 1638; 1637] = raise LessThan10Digits
  ∧ Forall (λ c, is_ascii_digit c = false) (arabic_indic_sample ++ [1632])
  ∧ _parse_rnokpp (arabic_indic_sample ++ [1632]) = raise MoreThan10Digits.
Proof.
  split; [repeat constructor|]. split; [vm_compute; reflexivity|].
  split; [repeat constructor | vm_compute; reflexivity].
Qed.

(** The vectors of [test_get_details_with_errors]. *)
Example test_parse_errors :
  _parse_rnokpp (str_of_string "1234567890+") = raise StringDoesNotConsistOfDigits
  ∧ _parse_rnokpp (str_of_string "123456789") = raise LessThan10Digits
  ∧ _parse_rnokpp (str_of_string " 234567890") = raise StringDoesNotConsistOfDigits
  ∧ _parse_rnokpp (str_of_string "12345678901") = raise MoreThan10Digits.
Proof. repeat split; vm_compute; reflexivity. Qed.

Lemma parse_precedence_witness :
  _parse_rnokpp (str_of_string "1234567890+")
  = raise StringDoesNotConsistOfDigits.
Proof.
  apply (parse_precedence (str_of_string "1234567890+")).
  do 10 apply Exists_cons_tl. apply Exists_cons_hd. reflexivity.
Defined.

End parsing.

(** ** Decoding *)

Section decoding.

Lemma BASE_DATE_ordinal : toordinal BASE_DATE = 693596.
Proof. reflexivity. Qed.

Lemma date_add_days_Ok d n :
  1 ≤ toordinal d + n ≤ MAXORDINAL → date_add_days d n = Ok (days_after d n).
Proof.
  intros [Hlo Hhi]. unfold date_add_days, days_after.
  apply Z.leb_le in Hlo, Hhi. by rewrite Hlo, Hhi.
Qed.

Lemma parity_odd d : (d mod 2 =? 1) = Z.odd d.
Proof.
  rewrite Zmod_odd. by destruct (Z.odd d).
Qed.

Lemma ten_digits s ds :
  _parse_rnokpp s = Ok ds →
  ∃ d0 d1 d2 d3 d4 d5 d6 d7 d8 d9,
    ds = [d0; d1; d2; d3; d4; d5; d6; d7; d8; d9] ∧ Forall is_digit ds.
Proof.
  intros [Hs Hlen]%parse_Ok. apply scan_digits in Hs as [Hlen' Hall].
  rewrite Hlen in Hlen'.
  do 10 (destruct ds as [|? ds]; [done|]). destruct ds; [|done].
  by do 10 eexists.
Qed.

(** The decoder after a successful parse. *)
Lemma get_details_parsed s d0 d1 d2 d3 d4 d5 d6 d7 d8 d9 :
  _parse_rnokpp s = Ok [d0; d1; d2; d3; d4; d5; d6; d7; d8; d9] →
  get_details s =
    if d9 =? weighted_sum [d0; d1; d2; d3; d4; d5; d6; d7; d8] mod 11 mod 10
    then Ok (mkDetails true (if Z.odd d8 then MALE else FEMALE)
               (days_after BASE_DATE (day_count d0 d1 d2 d3 d4 - 1)))
    else raise InvalidControlDigit.
Proof.
  intros Hp.
  destruct (ten_digits _ _ Hp)
    as (? & ? & ? & ? & ? & ? & ? & ? & ? & ? & Heq & Hall).
  injection Heq as <- <- <- <- <- <- <- <- <- <-.
  unfold get_details. rewrite Hp. cbn [mbind result_bind index lookup list_lookup take].
  rewrite control_digit_nine, <- weighted_sum_nine with (rest := []).
  cbn [mbind result_bind].
  destruct (d9 =? _); [|done]. cbn [negb].
  rewrite parity_odd. fold (day_count d0 d1 d2 d3 d4).
  rewrite date_add_days_Ok; [done|].
  rewrite BASE_DATE_ordinal. unfold MAXORDINAL, day_count.
  digit_bounds.
Qed.

(** Every string is decoded or refused with one of four errors. *)
Lemma get_details_total s :
  (∃ d, get_details s = Ok d ∧ valid d = true)
  ∨ (∃ e, get_details s = raise e
          ∧ (e = StringDoesNotConsistOfDigits ∨ e = MoreThan10Digits
             ∨ e = LessThan10Digits ∨ e = InvalidControlDigit)).
Proof.
  destruct (_parse_rnokpp s) as [ds|e] eqn:Hp.
  - destruct (ten_digits _ _ Hp) as (? & ? & ? & ? & ? & ? & ? & ? & ? & ? & -> & _).
    rewrite (get_details_parsed _ _ _ _ _ _ _ _ _ _ _ Hp).
    case_match; [left | right]; eauto 10.
  - right. unfold get_details. rewrite Hp.
    apply parse_raises in Hp as [-> | [-> | ->]]; eauto 10.
Qed.

Lemma get_details_Ok s r :
  get_details s = Ok r →
  ∃ d0 d1 d2 d3 d4 d5 d6 d7 d8 d9,
    _parse_rnokpp s = Ok [d0; d1; d2; d3; d4; d5; d6; d7; d8; d9]
    ∧ r = mkDetails true (if Z.odd d8 then MALE else FEMALE)
            (days_after BASE_DATE (day_count d0 d1 d2 d3 d4 - 1)).
Proof.
  intros Hd. destruct (_parse_rnokpp s) as [ds|e] eqn:Hp.
  - destruct (ten_digits _ _ Hp) as (d0 & d1 & d2 & d3 & d4 & d5 & d6 & d7 & d8 & d9 & -> & _).
    exists d0, d1, d2, d3, d4, d5, d6, d7, d8, d9. split; [done|].
    rewrite (get_details_parsed _ _ _ _ _ _ _ _ _ _ _ Hp) in Hd.
    case_match; [congruence|done].
  - unfold get_details in Hd. by rewrite Hp in Hd.
Qed.

End decoding.

Section decoding_properties.



(** C10.  Two strings that are both decoded and carry the same characters
    at positions 0-4 and 8 are decoded to the same gender and the same
    birthday: positions 5-7 and 9 bear on validity alone. *)
Theorem get_details_noninterference (s1 s2 : str) (r1 r2 : Details) :
  get_details s1 = Ok r1 →
  get_details s2 = Ok r2 →
  (∀ i, i ∈ [0; 1; 2; 3; 4; 8]%nat → s1 !! i = s2 !! i) →
  gender r1 = gender r2 ∧ birthday r1 = birthday r2.
Proof.
  intros (a0 & a1 & a2 & a3 & a4 & a5 & a6 & a7 & a8 & a9 & Hp1 & ->)%get_details_Ok
         (b0 & b1 & b2 & b3 & b4 & b5 & b6 & b7 & b8 & b9 & Hp2 & ->)%get_details_Ok
         Hagree.
  apply parse_Ok in Hp1 as [Hs1%scan_Ok _], Hp2 as [Hs2%scan_Ok _].
  assert (∀ i a b, (i ∈ [0; 1; 2; 3; 4; 8]%nat) →
            [a0; a1; a2; a3; a4; a5; a6; a7; a8; a9] !! i = Some a →
            [b0; b1; b2; b3; b4; b5; b6; b7; b8; b9] !! i = Some b → a = b)
    as Hsame.
  { intros i a b Hi Ha Hb.
    destruct (Forall2_lookup_r _ _ _ _ _ Hs1 Ha) as (c1 & Hc1 & Hv1).
    destruct (Forall2_lookup_r _ _ _ _ _ Hs2 Hb) as (c2 & Hc2 & Hv2).
    assert (Some c1 = Some c2) as [= ->].
    { etrans; [symmetry; exact Hc1|]. etrans; [exact (Hagree i Hi)|exact Hc2]. }
    congruence. }
  assert (a0 = b0) as -> by (apply (Hsame 0%nat); [apply list_elem_of_In; cbn; tauto|done..]).
  assert (a1 = b1) as -> by (apply (Hsame 1%nat); [apply list_elem_of_In; cbn; tauto|done..]).
  assert (a2 = b2) as -> by (apply (Hsame 2%nat); [apply list_elem_of_In; cbn; tauto|done..]).
  assert (a3 = b3) as -> by (apply (Hsame 3%nat); [apply list_elem_of_In; cbn; tauto|done..]).
  assert (a4 = b4) as -> by (apply (Hsame 4%nat); [apply list_elem_of_In; cbn; tauto|done..]).
  assert (a8 = b8) as -> by (apply (Hsame 8%nat); [apply list_elem_of_In; cbn; tauto|done..]).
  done.
Qed.

(** 3652504575 and 3652512373 differ at positions 5-7 and 9 only. *)
Lemma get_details_noninterference_witness :
  get_details (str_of_string "3652504575")
    = Ok (mkDetails true MALE (date_of_ymd 2000 1 1))
  ∧ get_details (str_of_string "3652512373")
    = Ok (mkDetails true MALE (date_of_ymd 2000 1 1))
  ∧ gender (mkDetails true MALE (date_of_ymd 2000 1 1))
    = gender (mkDetails true MALE (date_of_ymd 2000 1 1))
  ∧ birthday (mkDetails true MALE (date_of_ymd 2000 1 1))
    = birthday (mkDetails true MALE (date_of_ymd 2000 1 1)).
Proof.
  assert (get_details (str_of_string "3652504575")
          = Ok (mkDetails true MALE (date_of_ymd 2000 1 1))) as H1
    by (vm_compute; reflexivity).
  assert (get_details (str_of_string "3652512373")
          = Ok (mkDetails true MALE (date_of_ymd 2000 1 1))) as H2
    by (vm_compute; reflexivity).
  split; [exact H1|]. split; [exact H2|].
  apply (get_details_noninterference _ _ _ _ H1 H2).
  intros i Hi. repeat (apply elem_of_cons in Hi as [-> | Hi]; [reflexivity|]).
  by apply elem_of_nil in Hi.
Defined.

End decoding_properties.

Section validity.

Lemma is_valid_Ok s d : get_details s = Ok d → is_valid s = Ok (valid d).
Proof. intros Hd. unfold is_valid. by rewrite Hd. Qed.

Lemma is_valid_raise s e : get_details s = raise e → is_valid s = Ok false.
Proof. intros Hd. unfold is_valid. by rewrite Hd. Qed.

(** C7.  [is_valid] returns on every string: true exactly when
    [get_details] succeeds, false exactly when it fails, and a failure is
    one of the digit error, the two length errors and the control digit
    error. *)
Theorem is_valid_total (s : str) :
  ∃ b, is_valid s = Ok b
       ∧ (b = true ↔ ∃ d, get_details s = Ok d)
       ∧ (b = false ↔ ∃ e, get_details s = Raise e)
       ∧ (∀ e, get_details s = Raise e →
            e = RNOKPP StringDoesNotConsistOfDigits
            ∨ e = RNOKPP MoreThan10Digits ∨ e = RNOKPP LessThan10Digits
            ∨ e = RNOKPP InvalidControlDigit).
Proof.
  destruct (get_details_total s) as [(d & Hd & Hv) | (e & He & Hkind)].
  - exists true. rewrite (is_valid_Ok _ _ Hd), Hv, Hd.
    split; [done|]. split; [naive_solver|]. split; [|done].
    split; [done | by intros [? ?]].
  - exists false. rewrite (is_valid_raise _ _ He), He.
    split; [done|]. split; [split; [done | by intros [? ?]]|].
    split; [split; [intros _; by eexists | done]|].
    unfold raise. intros e' [= <-].
    destruct Hkind as [-> | [-> | [-> | ->]]]; auto.
Qed.

Lemma is_valid_total_witness :
  ∃ b, is_valid (str_of_string "3652504576") = Ok b
       ∧ (b = true ↔ ∃ d, get_details (str_of_string "3652504576") = Ok d)
       ∧ (b = false ↔ ∃ e, get_details (str_of_string "3652504576") = Raise e)
       ∧ (∀ e, get_details (str_of_string "3652504576") = Raise e →
            e = RNOKPP StringDoesNotConsistOfDigits
            ∨ e = RNOKPP MoreThan10Digits ∨ e = RNOKPP LessThan10Digits
            ∨ e = RNOKPP InvalidControlDigit).
Proof. apply (is_valid_total (str_of_string "3652504576")). Defined.

Example test_is_valid :
  is_valid (str_of_string "3652504575") = Ok true
  ∧ is_valid (str_of_string "3652504576") = Ok false
  ∧ get_details (str_of_string "3652504576") = raise InvalidControlDigit
  ∧ is_valid (str_of_string "invalid") = Ok false.
Proof. repeat split; vm_compute; reflexivity. Qed.

(** C3, as the code has it.  The parser, and with it the decoder, raises
    the digit error exactly on the strings with a character that [int]
    does not convert; an ASCII character is converted exactly when it is
    one of 0-9, so white space, signs and letters are refused. *)
Theorem parse_rejects_exactly_non_decimal (s : str) :
  (_parse_rnokpp s = raise StringDoesNotConsistOfDigits ↔ Exists not_decimal s)
  ∧ (get_details s = raise StringDoesNotConsistOfDigits ↔ Exists not_decimal s)
  ∧ Forall (λ c, c < 128 → (not_decimal c ↔ is_ascii_digit c = false)) s.
Proof.
  split; [apply parse_digit_error|]. split.
  - rewrite <- parse_digit_error. unfold get_details.
    destruct (_parse_rnokpp s) as [ds|e] eqn:Hp; [|cbn; unfold raise; split; intros [= ->]; done].
    split; [|intros [=]]. intros Hd.
    destruct (ten_digits _ _ Hp) as (? & ? & ? & ? & ? & ? & ? & ? & ? & ? & -> & _).
    pose proof (get_details_parsed _ _ _ _ _ _ _ _ _ _ _ Hp) as Hd'.
    unfold get_details in Hd'. rewrite Hp, Hd in Hd'. by case_match.
  - apply Forall_forall. intros c _ Hc. unfold not_decimal.
    pose proof (decimal_value_ascii_only c Hc) as Hiff.
    rewrite <- not_true_iff_false, <- Hiff, eq_None_not_Some. done.
Qed.

Lemma parse_rejects_exactly_non_decimal_witness :
  _parse_rnokpp (str_of_string " 234567890")
  = raise StringDoesNotConsistOfDigits.
Proof.
  apply (parse_rejects_exactly_non_decimal (str_of_string " 234567890")).
  apply Exists_cons_hd. reflexivity.
Defined.

(** C3 as stated fails: the ten Arabic-Indic digits of the sample are not
    ASCII digits, yet the parser returns their values and the decoder
    accepts the string. *)
Lemma parse_accepts_non_ascii_decimal_digits :
  Forall (λ c, is_ascii_digit c = false) arabic_indic_sample
  ∧ _parse_rnokpp arabic_indic_sample = Ok [3; 6; 5; 2; 5; 0; 4; 5; 7; 5]
  ∧ get_details arabic_indic_sample
    = Ok (mkDetails true MALE (date_of_ymd 2000 1 1)).
Proof.
  split; [repeat constructor|]. split; vm_compute; reflexivity.
Qed.

End validity.

(** ** Printing numbers *)

Section printing.

Lemma scan_chars ds : Forall is_digit ds → mapM int_of_char (chars ds) = Ok ds.
Proof.
  intros Hall. apply scan_Ok. unfold chars.
  apply Forall2_fmap_l, Forall_Forall2_diag.
  induction Hall as [|d ds Hd _ IH]; constructor; [|done].
  by apply decimal_value_ascii.
Qed.

Lemma dec_digits_last fuel n acc :
  0 ≤ n < 10 → dec_digits (S fuel) n acc = (48 + n) :: acc.
Proof.
  intros Hn. cbn [dec_digits].
  assert ((n <? 10) = true) as -> by (apply Z.ltb_lt; lia).
  by rewrite Z.mod_small.
Qed.

Lemma dec_digits_step fuel n acc :
  10 ≤ n →
  dec_digits (S fuel) n acc = dec_digits fuel (n / 10) ((48 + n mod 10) :: acc).
Proof.
  intros Hn. cbn [dec_digits].
  by assert ((n <? 10) = false) as -> by (apply Z.ltb_ge; lia).
Qed.

(** Whatever the fuel, only digits are printed. *)
Lemma dec_digits_chars fuel n acc :
  ∃ ds, Forall is_digit ds ∧ dec_digits fuel n (chars acc) = chars (ds ++ acc).
Proof.
  revert n acc. induction fuel as [|fuel IH]; intros n acc.
  - by exists [].
  - assert (is_digit (n mod 10)) as Hd
      by (unfold is_digit; pose proof (Z.mod_pos_bound n 10); lia).
    cbn [dec_digits]. destruct (n <? 10).
    + exists [n mod 10]. split; [by constructor | done].
    + destruct (IH (n / 10) (n mod 10 :: acc)) as (ds & Hds & Heq).
      exists (ds ++ [n mod 10]). split.
      * apply Forall_app. split; [done | by constructor].
      * by rewrite <- app_assoc.
Qed.

Lemma dec_digits_nonempty fuel n acc : dec_digits (S fuel) n acc ≠ [].
Proof.
  revert n acc. induction fuel as [|fuel IH]; intros n acc; cbn [dec_digits].
  - by destruct (n <? 10).
  - destruct (n <? 10); [done|]. apply (IH (n / 10)).
Qed.

Lemma fuel_enough n k :
  2 ^ Z.of_nat k ≤ n → ∃ fuel, Z.to_nat (Z.log2 n) = (k + fuel)%nat.
Proof.
  intros Hn. exists (Z.to_nat (Z.log2 n) - k)%nat.
  assert (0 < 2 ^ Z.of_nat k) by (apply Z.pow_pos_nonneg; lia).
  assert (Z.of_nat k ≤ Z.log2 n) by (apply Z.log2_le_pow2; lia).
  lia.
Qed.

(** One digit is printed as one character. *)
Lemma str_of_int_digit d : is_digit d → str_of_int d = chars [d].
Proof.
  intros [Hlo Hhi]. unfold str_of_int, dec_of_nonneg.
  assert ((d <? 0) = false) as -> by (apply Z.ltb_ge; lia).
  rewrite dec_digits_last by lia. done.
Qed.

(** Up to 99999 the zero-padded form has five characters. *)
Lemma format_05d_five n :
  0 ≤ n ≤ 99999 →
  format_05d n
  = chars [n / 10000; n / 1000 mod 10; n / 100 mod 10; n / 10 mod 10; n mod 10].
Proof.
  intros Hn. unfold format_05d, dec_of_nonneg, zero_pad.
  assert ((n <? 0) = false) as -> by (apply Z.ltb_ge; lia).
  assert (n / 10 / 10 = n / 100 ∧ n / 10 / 10 / 10 = n / 1000
          ∧ n / 10 / 10 / 10 / 10 = n / 10000) as (E2 & E3 & E4)
    by (rewrite !Z.div_div by lia; done).
  destruct (Z_lt_le_dec n 10) as [H1|H1];
    [|destruct (Z_lt_le_dec n 100) as [H2|H2];
      [|destruct (Z_lt_le_dec n 1000) as [H3|H3];
        [|destruct (Z_lt_le_dec n 10000) as [H4|H4]]]].
  - rewrite dec_digits_last by lia. cbn. unfold chars. cbn.
    repeat f_equal; Z.div_mod_to_equations; lia.
  - destruct (fuel_enough n 1) as [fuel ->]; [change (2 ^ Z.of_nat 1) with 2; lia|]. cbn [Nat.add].
    rewrite dec_digits_step by lia.
    rewrite dec_digits_last by (Z.div_mod_to_equations; lia).
    cbn. unfold chars. cbn. repeat f_equal; Z.div_mod_to_equations; lia.
  - destruct (fuel_enough n 2) as [fuel ->]; [change (2 ^ Z.of_nat 2) with 4; lia|]. cbn [Nat.add].
    rewrite !dec_digits_step by (Z.div_mod_to_equations; lia).
    rewrite dec_digits_last by (Z.div_mod_to_equations; lia).
    rewrite ?E2. cbn. unfold chars. cbn.
    repeat f_equal; Z.div_mod_to_equations; lia.
  - destruct (fuel_enough n 3) as [fuel ->]; [change (2 ^ Z.of_nat 3) with 8; lia|]. cbn [Nat.add].
    rewrite !dec_digits_step by (Z.div_mod_to_equations; lia).
    rewrite dec_digits_last by (Z.div_mod_to_equations; lia).
    rewrite ?E3, ?E2. cbn. unfold chars. cbn.
    repeat f_equal; Z.div_mod_to_equations; lia.
  - destruct (fuel_enough n 4) as [fuel ->]; [change (2 ^ Z.of_nat 4) with 16; lia|]. cbn [Nat.add].
    rewrite !dec_digits_step by (Z.div_mod_to_equations; lia).
    rewrite dec_digits_last by (Z.div_mod_to_equations; lia).
    rewrite ?E4, ?E3, ?E2. cbn. unfold chars. cbn.
    repeat f_equal; Z.div_mod_to_equations; lia.
Qed.

(** Beyond, it is longer; it is made of digits all the same. *)
Lemma format_05d_chars n :
  0 ≤ n → ∃ ds, format_05d n = chars ds ∧ Forall is_digit ds ∧ (5 ≤ length ds)%nat.
Proof.
  intros Hn. unfold format_05d, dec_of_nonneg, zero_pad.
  assert ((n <? 0) = false) as -> by (apply Z.ltb_ge; lia).
  destruct (dec_digits_chars (S (Z.to_nat (Z.log2 n))) n []) as (ds & Hds & Heq).
  change (chars []) with (@nil char) in Heq. rewrite Heq, app_nil_r.
  unfold chars at 1 2. rewrite length_fmap.
  exists (replicate (5 - length ds) 0 ++ ds). split; [|split].
  - unfold chars. by rewrite fmap_app, fmap_replicate.
  - apply Forall_app. split; [|done].
    apply Forall_replicate. unfold is_digit. lia.
  - rewrite length_app, length_replicate. lia.
Qed.

End printing.

(** ** Drawing at random *)

Section drawing.

Lemma rand_bind_Ok {A B} (m : Rand A) (f : A → Rand B) t a t' :
  m t = Ok (a, t') → (m ≫= f) t = f a t'.
Proof. intros Hm. unfold mbind, Rand_bind. by rewrite Hm. Qed.

Lemma rand_bind_Raise {A B} (m : Rand A) (f : A → Rand B) t e :
  m t = Raise e → (m ≫= f) t = Raise e.
Proof. intros Hm. unfold mbind, Rand_bind. by rewrite Hm. Qed.

Lemma lift_Ok {A} (r : result A) a t : r = Ok a → lift r t = Ok (a, t).
Proof. by intros ->. Qed.

Lemma run_Ok {A} (m : Rand A) t a t' : m t = Ok (a, t') → run m t = Ok a.
Proof. intros Hm. unfold run. by rewrite Hm. Qed.

Lemma run_Raise {A} (m : Rand A) t e : m t = Raise e → run m t = Raise e.
Proof. intros Hm. unfold run. by rewrite Hm. Qed.

Lemma randint_Ok a b t :
  a ≤ b →
  ∃ r, randint a b t = Ok (r, after 1 t) ∧ a ≤ r ≤ b.
Proof.
  intros Hab. unfold randint.
  assert ((b <? a) = false) as -> by (apply Z.ltb_ge; lia).
  exists (a + t 0%nat mod (b - a + 1)). split; [done|].
  pose proof (Z.mod_pos_bound (t 0%nat) (b - a + 1)). lia.
Qed.

Lemma randint_empty a b t : b < a → randint a b t = Raise ValueError.
Proof.
  intros Hab. unfold randint.
  by assert ((b <? a) = true) as -> by (apply Z.ltb_lt; lia).
Qed.

(** Every value of the range is drawn from some tape. *)
Lemma randint_onto a b r :
  a ≤ r ≤ b → ∃ t, run (randint a b) t = Ok r.
Proof.
  intros Hr. exists (λ _, r - a). unfold run, randint.
  assert ((b <? a) = false) as -> by (apply Z.ltb_ge; lia).
  unfold mbind, Rand_bind, draw, mret, Rand_ret.
  rewrite Z.mod_small by lia. f_equal. lia.
Qed.

Lemma choice_Ok {A} (seq : list A) t :
  seq ≠ [] → ∃ x, choice seq t = Ok (x, after 1 t) ∧ x ∈ seq.
Proof.
  intros Hne. unfold choice. destruct seq as [|y seq]; [done|].
  set (l := y :: seq) in *.
  assert (0 < Z.of_nat (length l)) as Hlen by (cbn; lia).
  pose proof (Z.mod_pos_bound (t 0%nat) _ Hlen) as Hi.
  destruct (lookup_lt_is_Some_2 l (Z.to_nat (t 0%nat mod Z.of_nat (length l))))
    as [x Hx]; [lia|].
  exists x. split; [|by eapply list_elem_of_lookup_2].
  unfold mbind, Rand_bind, draw, index. by rewrite Hx.
Qed.

(** The digit drawn for a gender has its parity. *)
Lemma gender_digit_Ok g t :
  ∃ gd, match g with
        | MALE => choice MALE_DIGITS
        | FEMALE => choice FEMALE_DIGITS
        end t = Ok (gd, after 1 t)
        ∧ is_digit gd
        ∧ Z.odd gd = match g with MALE => true | FEMALE => false end.
Proof.
  destruct g.
  - destruct (choice_Ok MALE_DIGITS t) as (gd & Hc & Hin); [done|].
    exists gd. split; [done|]. unfold MALE_DIGITS, is_digit in *.
    repeat (apply elem_of_cons in Hin as [-> | Hin]; [split; [lia|done]|]).
    by apply elem_of_nil in Hin.
  - destruct (choice_Ok FEMALE_DIGITS t) as (gd & Hc & Hin); [done|].
    exists gd. split; [done|]. unfold FEMALE_DIGITS, is_digit in *.
    repeat (apply elem_of_cons in Hin as [-> | Hin]; [split; [lia|done]|]).
    by apply elem_of_nil in Hin.
Qed.

End drawing.

(** ** Generation *)

Section generation.

Lemma date_lt_spec a b : date_lt a b = true ↔ toordinal a < toordinal b.
Proof. apply Z.ltb_lt. Qed.

Lemma date_lt_false a b : date_lt a b = false ↔ toordinal b ≤ toordinal a.
Proof. apply Z.ltb_ge. Qed.

Lemma generate_rnokpp_early today d g t :
  toordinal d < toordinal BASE_DATE →
  generate_rnokpp today d g t = Raise (RNOKPP (NotAllowedDate d)).
Proof.
  intros Hd%date_lt_spec. unfold generate_rnokpp. by rewrite Hd.
Qed.

Lemma generate_rnokpp_future today d g t :
  toordinal BASE_DATE ≤ toordinal d →
  toordinal today < toordinal d →
  generate_rnokpp today d g t = Raise (RNOKPP (DateInFuture d)).
Proof.
  intros Hd%date_lt_false Ht%date_lt_spec. unfold generate_rnokpp.
  by rewrite Hd, Ht.
Qed.

(** Within the bounds a string is produced: the zero-padded day count,
    three digits, a digit of the parity of the gender and the control digit
    of the nine digits that come first. *)
Lemma generate_rnokpp_body today d g t :
  toordinal BASE_DATE ≤ toordinal d →
  toordinal d ≤ toordinal today →
  ∃ p r1 r2 r3 gd c t',
    format_05d (date_diff_days d BASE_DATE + 1) = chars p
    ∧ Forall is_digit (p ++ [r1; r2; r3; gd])
    ∧ (5 ≤ length p)%nat
    ∧ Z.odd gd = match g with MALE => true | FEMALE => false end
    ∧ _calculate_control_digit (p ++ [r1; r2; r3; gd]) = Ok c
    ∧ is_digit c
    ∧ generate_rnokpp today d g t = Ok (chars (p ++ [r1; r2; r3; gd; c]), t').
Proof.
  intros Hlo Hhi.
  destruct (format_05d_chars (date_diff_days d BASE_DATE + 1))
    as (p & Hp & Hpd & Hlen); [unfold date_diff_days; lia|].
  destruct (randint_Ok 0 9 t) as (r1 & Hr1 & Hd1); [lia|].
  destruct (randint_Ok 0 9 (after 1 t)) as (r2 & Hr2 & Hd2); [lia|].
  destruct (randint_Ok 0 9 (after 1 (after 1 t))) as (r3 & Hr3 & Hd3); [lia|].
  destruct (gender_digit_Ok g (after 1 (after 1 (after 1 t))))
    as (gd & Hgd & Hdg & Hodd).
  assert (Forall is_digit (p ++ [r1; r2; r3; gd])) as Hall
    by (apply Forall_app; split; [done | by repeat apply Forall_cons_2]).
  assert (9 ≤ length (p ++ [r1; r2; r3; gd]))%nat as Hnine
    by (rewrite length_app; cbn; lia).
  pose proof (control_digit_weighted _ Hnine) as Hc.
  set (c := weighted_sum (p ++ [r1; r2; r3; gd]) mod 11 mod 10) in *.
  assert (is_digit c) as Hdc by apply mod_11_10_range.
  exists p, r1, r2, r3, gd, c, (after 1 (after 1 (after 1 (after 1 t)))).
  repeat (split; [done|]).
  apply date_lt_false in Hlo, Hhi. unfold generate_rnokpp.
  rewrite Hlo, Hhi. cbv zeta.
  rewrite (rand_bind_Ok _ _ _ _ _ Hr1), (rand_bind_Ok _ _ _ _ _ Hr2),
    (rand_bind_Ok _ _ _ _ _ Hr3), (rand_bind_Ok _ _ _ _ _ Hgd).
  rewrite Hp, !str_of_int_digit by done.
  unfold chars. rewrite <- !fmap_app, <- !app_assoc. cbn [app].
  fold (chars (p ++ [r1; r2; r3; gd])).
  rewrite (rand_bind_Ok _ _ _ _ _ (lift_Ok _ _ _ (scan_chars _ Hall))).
  rewrite (rand_bind_Ok _ _ _ _ _ (lift_Ok _ _ _ Hc)).
  rewrite str_of_int_digit by done.
  unfold chars. rewrite <- fmap_app, <- app_assoc. done.
Qed.

End generation.

(** ** The five-digit horizon *)

Section roundtrip.

Example last_day_count :
  date_diff_days LAST_DATE BASE_DATE + 1 = 99999
  ∧ date_diff_days OVERFLOW_DATE BASE_DATE + 1 = 100000.
Proof. split; reflexivity. Qed.

Lemma LAST_DATE_ordinal : toordinal LAST_DATE = 793594.
Proof. reflexivity. Qed.

Lemma chars_inj ds ds' : chars ds = chars ds' → ds = ds'.
Proof.
  revert ds'. induction ds as [|d ds IH]; intros [|d' ds']; cbn; try done.
  intros [= Hd Hds]. f_equal; [lia | by apply IH].
Qed.

Lemma days_after_diff d : days_after BASE_DATE (date_diff_days d BASE_DATE + 1 - 1) = d.
Proof. destruct d as [o]. unfold days_after, date_diff_days. cbn. f_equal. lia. Qed.

(** What is generated for a day up to the last one decodes to the date
    and the gender it was generated for. *)
Lemma generate_rnokpp_decodes today d g t :
  toordinal BASE_DATE ≤ toordinal d →
  toordinal d ≤ toordinal today →
  toordinal d ≤ toordinal LAST_DATE →
  ∃ s t', generate_rnokpp today d g t = Ok (s, t')
          ∧ length s = 10%nat
          ∧ Forall (λ c, is_ascii_digit c = true) s
          ∧ get_details s = Ok (mkDetails true g d).
Proof.
  intros Hlo Hhi Hlast.
  destruct (generate_rnokpp_body today d g t Hlo Hhi)
    as (p & r1 & r2 & r3 & gd & c & t' & Hp & Hall & _ & Hodd & Hc & Hdc & Hgen).
  set (N := date_diff_days d BASE_DATE + 1) in *.
  assert (1 ≤ N ≤ 99999) as HN.
  { unfold N, date_diff_days. rewrite LAST_DATE_ordinal in Hlast.
    rewrite BASE_DATE_ordinal in *. lia. }
  rewrite format_05d_five in Hp by lia. apply chars_inj in Hp as <-.
  cbn [app] in *. rewrite control_digit_nine in Hc.
  injection Hc as Hc.
  rewrite <- weighted_sum_nine with (rest := []) in Hc.
  assert (Forall is_digit
            [N / 10000; N / 1000 mod 10; N / 100 mod 10; N / 10 mod 10;
             N mod 10; r1; r2; r3; gd; c]) as Hall'.
  { change (Forall is_digit
              ([N / 10000; N / 1000 mod 10; N / 100 mod 10; N / 10 mod 10;
                N mod 10; r1; r2; r3; gd] ++ [c])).
    apply Forall_app. split; [done | by apply Forall_cons_2]. }
  eexists _, t'. split; [exact Hgen|]. split; [reflexivity|]. split.
  { unfold chars. apply Forall_fmap. eapply Forall_impl; [|exact Hall'].
    intros x [??]. unfold is_ascii_digit; cbn.
    apply andb_true_iff. rewrite !Z.leb_le. lia. }
  rewrite (get_details_parsed _ _ _ _ _ _ _ _ _ _ _
             (proj2 (parse_Ok _ _) (conj (scan_chars _ Hall') eq_refl))).
  rewrite Hc, Z.eqb_refl, Hodd. f_equal.
  assert (day_count (N / 10000) (N / 1000 mod 10) (N / 100 mod 10)
            (N / 10 mod 10) (N mod 10) = N) as ->
    by (unfold day_count; Z.div_mod_to_equations; lia).
  unfold N. rewrite days_after_diff. by destruct g.
Qed.

(** C1, within the horizon.  For a date from the base date to today and
    no later than 2173-10-14, for both genders and every outcome of the
    draws, the generated string has ten ASCII digits and decodes to a valid
    result with that gender and that date. *)
Theorem generate_rnokpp_roundtrip (today d : date) (g : Gender) (t : tape) :
  toordinal BASE_DATE ≤ toordinal d →
  toordinal d ≤ toordinal today →
  toordinal d ≤ toordinal LAST_DATE →
  ∃ s, run (generate_rnokpp today d g) t = Ok s
       ∧ length s = 10%nat
       ∧ Forall (λ c, is_ascii_digit c = true) s
       ∧ get_details s = Ok (mkDetails true g d)
       ∧ is_valid s = Ok true.
Proof.
  intros Hlo Hhi Hlast.
  destruct (generate_rnokpp_decodes today d g t Hlo Hhi Hlast)
    as (s & t' & Hgen & Hlen & Hdig & Hdec).
  exists s. split; [by eapply run_Ok|]. repeat (split; [done|]).
  by rewrite (is_valid_Ok _ _ Hdec).
Qed.

Lemma generate_rnokpp_roundtrip_witness :
  ∃ s, run (generate_rnokpp (date_of_ymd 2026 11 3) (date_of_ymd 2000 1 1)
              FEMALE) (λ n, Z.of_nat n) = Ok s
       ∧ length s = 10%nat
       ∧ Forall (λ c, is_ascii_digit c = true) s
       ∧ get_details s = Ok (mkDetails true FEMALE (date_of_ymd 2000 1 1))
       ∧ is_valid s = Ok true.
Proof.
  apply (generate_rnokpp_roundtrip (date_of_ymd 2026 11 3)
           (date_of_ymd 2000 1 1) FEMALE (λ n, Z.of_nat n));
    vm_compute; discriminate.
Defined.

(** C1 as stated fails once today is past the horizon: on 2173-10-15 the
    day count of the day itself is 100000, the generated string has eleven
    characters and the decoder refuses it. *)
Lemma roundtrip_fails_past_horizon :
  toordinal BASE_DATE ≤ toordinal OVERFLOW_DATE
  ∧ run (generate_rnokpp OVERFLOW_DATE OVERFLOW_DATE MALE) (λ _, 0)
    = Ok (str_of_string "10000000010")
  ∧ get_details (str_of_string "10000000010") = raise MoreThan10Digits
  ∧ is_valid (str_of_string "10000000010") = Ok false.
Proof.
  split; [vm_compute; discriminate|]. repeat split; vm_compute; reflexivity.
Qed.

End roundtrip.

Section date_bounds.

Lemma generate_rnokpp_in_bounds today d g t :
  toordinal BASE_DATE ≤ toordinal d →
  toordinal d ≤ toordinal today →
  ∃ s, run (generate_rnokpp today d g) t = Ok s.
Proof.
  intros Hlo Hhi.
  destruct (generate_rnokpp_body today d g t Hlo Hhi)
    as (? & ? & ? & ? & ? & ? & t' & _ & _ & _ & _ & _ & _ & Hgen).
  eexists. by eapply run_Ok.
Qed.

(** The three outcomes of the generator, by the place of the date. *)
Lemma generate_rnokpp_cases today d g t :
  (toordinal d < toordinal BASE_DATE
   ∧ run (generate_rnokpp today d g) t = raise (NotAllowedDate d))
  ∨ (toordinal BASE_DATE ≤ toordinal d ∧ toordinal today < toordinal d
     ∧ run (generate_rnokpp today d g) t = raise (DateInFuture d))
  ∨ (toordinal BASE_DATE ≤ toordinal d ≤ toordinal today
     ∧ ∃ s, run (generate_rnokpp today d g) t = Ok s).
Proof.
  destruct (Z_lt_le_dec (toordinal d) (toordinal BASE_DATE)) as [Hearly|Hlo].
  { left. split; [done|]. apply run_Raise. by apply generate_rnokpp_early. }
  destruct (Z_lt_le_dec (toordinal today) (toordinal d)) as [Hfuture|Hhi].
  { right; left. repeat split; [done..|].
    apply run_Raise. by apply generate_rnokpp_future. }
  right; right. split; [done|]. by apply generate_rnokpp_in_bounds.
Qed.

(** C8.  The generator raises [NotAllowedDate] exactly for a date before
    the base date, [DateInFuture] exactly for a date from the base date on
    that is after today, and returns a string otherwise.  With today at or
    after the base date, it returns for the base date and for today, and
    raises the two errors for the day before the base date and for
    tomorrow. *)
Theorem generate_rnokpp_date_bounds (today : date) (g : Gender) (t : tape) :
  (∀ d,
     (run (generate_rnokpp today d g) t = raise (NotAllowedDate d) ↔
        toordinal d < toordinal BASE_DATE)
     ∧ (run (generate_rnokpp today d g) t = raise (DateInFuture d) ↔
          toordinal BASE_DATE ≤ toordinal d ∧ toordinal today < toordinal d)
     ∧ ((∃ s, run (generate_rnokpp today d g) t = Ok s) ↔
          toordinal BASE_DATE ≤ toordinal d ≤ toordinal today))
  ∧ (toordinal BASE_DATE ≤ toordinal today →
       (∃ s, run (generate_rnokpp today BASE_DATE g) t = Ok s)
       ∧ (∃ s, run (generate_rnokpp today today g) t = Ok s)
       ∧ run (generate_rnokpp today (days_after BASE_DATE (-1)) g) t
         = raise (NotAllowedDate (days_after BASE_DATE (-1)))
       ∧ run (generate_rnokpp today (days_after today 1) g) t
         = raise (DateInFuture (days_after today 1))).
Proof.
  split.
  - intros d. unfold raise.
    destruct (generate_rnokpp_cases today d g t)
      as [[Hd ->] | [(Hlo & Hhi & ->) | (Hin & s & ->)]].
    + split; [|split]; split; try (intros; done); try (intros; lia).
      by intros [? ?].
    + split; [|split]; split; try (intros; done); try (intros; lia).
      by intros [? ?].
    + split; [|split]; split; try (intros; done); try (intros; lia).
      intros _. by exists s.
  - intros Htoday. split; [|split; [|split]].
    + apply generate_rnokpp_in_bounds; lia.
    + apply generate_rnokpp_in_bounds; lia.
    + apply run_Raise, generate_rnokpp_early.
      unfold days_after. cbn [toordinal]. lia.
    + apply run_Raise, generate_rnokpp_future;
        unfold days_after; cbn [toordinal]; lia.
Qed.

(** On 2026-11-03. *)
Lemma generate_rnokpp_date_bounds_witness :
  (∃ s, run (generate_rnokpp (date_of_ymd 2026 11 3) BASE_DATE MALE) (λ _, 7)
        = Ok s)
  ∧ (∃ s, run (generate_rnokpp (date_of_ymd 2026 11 3) (date_of_ymd 2026 11 3)
                 MALE) (λ _, 7) = Ok s)
  ∧ run (generate_rnokpp (date_of_ymd 2026 11 3) (days_after BASE_DATE (-1))
           MALE) (λ _, 7)
    = raise (NotAllowedDate (days_after BASE_DATE (-1)))
  ∧ run (generate_rnokpp (date_of_ymd 2026 11 3)
           (days_after (date_of_ymd 2026 11 3) 1) MALE) (λ _, 7)
    = raise (DateInFuture (days_after (date_of_ymd 2026 11 3) 1)).
Proof.
  apply (generate_rnokpp_date_bounds (date_of_ymd 2026 11 3) MALE (λ _, 7)).
  vm_compute. discriminate.
Defined.

Example test_generate_boundaries :
  days_after BASE_DATE (-1) = date_of_ymd 1899 12 31
  ∧ days_after (date_of_ymd 2026 11 3) 1 = date_of_ymd 2026 11 4
  ∧ run (generate_rnokpp (date_of_ymd 2026 11 3) BASE_DATE FEMALE) (λ _, 7)
    = Ok (str_of_string "0000177743").
Proof. repeat split; vm_compute; reflexivity. Qed.

End date_bounds.

(** ** Random generation *)

Section random_generation.

Lemma date_add_days_cases d n :
  date_add_days d n = Ok (days_after d n)
  ∨ date_add_days d n = Raise OverflowError.
Proof. unfold date_add_days, days_after. case_match; auto. Qed.

(** One random number: the steps up to the call of the generator. *)
Lemma generate_random_rnokpp_steps today t :
  toordinal BASE_DATE ≤ toordinal today →
  generate_random_rnokpp today t = Raise OverflowError
  ∨ ∃ r g t',
      0 ≤ r ≤ date_diff_days today BASE_DATE
      ∧ generate_random_rnokpp today t
        = generate_rnokpp today (days_after BASE_DATE r) g t'.
Proof.
  intros Htoday. unfold generate_random_rnokpp. cbv zeta.
  destruct (randint_Ok 0 (date_diff_days today BASE_DATE) t)
    as (r & Hr & Hrange); [unfold date_diff_days; lia|].
  rewrite (rand_bind_Ok _ _ _ _ _ Hr).
  destruct (date_add_days_cases BASE_DATE r) as [Hadd | Hadd].
  - right. rewrite (rand_bind_Ok _ _ _ _ _ (lift_Ok _ _ _ Hadd)).
    destruct (choice_Ok [MALE; FEMALE] (after 1 t)) as (g & Hg & _); [done|].
    unfold Gender_random. rewrite (rand_bind_Ok _ _ _ _ _ Hg). eauto.
  - left. apply rand_bind_Raise. by rewrite Hadd.
Qed.

Lemma generate_random_rnokpp_raises today t e :
  generate_random_rnokpp today t = Raise e →
  e = ValueError ∨ e = OverflowError.
Proof.
  destruct (Z_lt_le_dec (toordinal today) (toordinal BASE_DATE)) as [Hpast|Hok].
  - unfold generate_random_rnokpp. cbv zeta.
    rewrite (rand_bind_Raise _ _ _ ValueError)
      by (apply randint_empty; unfold date_diff_days; lia).
    intros [= <-]. auto.
  - destruct (generate_random_rnokpp_steps today t Hok)
      as [-> | (r & g & t' & Hr & ->)]; [intros [= <-]; auto|].
    destruct (generate_rnokpp_body today (days_after BASE_DATE r) g t')
      as (? & ? & ? & ? & ? & ? & ? & _ & _ & _ & _ & _ & _ & ->);
      [unfold days_after, date_diff_days in *; cbn [toordinal]; lia..|done].
Qed.

Lemma generate_random_rnokpp_valid today t :
  toordinal BASE_DATE ≤ toordinal today →
  toordinal today ≤ toordinal LAST_DATE →
  ∃ s t', generate_random_rnokpp today t = Ok (s, t') ∧ is_valid s = Ok true.
Proof.
  intros Hlo Hhi. unfold generate_random_rnokpp. cbv zeta.
  destruct (randint_Ok 0 (date_diff_days today BASE_DATE) t)
    as (r & Hr & Hrange); [unfold date_diff_days; lia|].
  rewrite (rand_bind_Ok _ _ _ _ _ Hr).
  unfold date_diff_days in Hrange.
  rewrite LAST_DATE_ordinal in Hhi. rewrite BASE_DATE_ordinal in *.
  assert (date_add_days BASE_DATE r = Ok (days_after BASE_DATE r)) as Hadd
    by (apply date_add_days_Ok; rewrite BASE_DATE_ordinal;
        unfold MAXORDINAL; lia).
  rewrite (rand_bind_Ok _ _ _ _ _ (lift_Ok _ _ _ Hadd)).
  destruct (choice_Ok [MALE; FEMALE] (after 1 t)) as (g & Hg & _); [done|].
  unfold Gender_random. rewrite (rand_bind_Ok _ _ _ _ _ Hg).
  destruct (generate_rnokpp_decodes today (days_after BASE_DATE r) g
              (after 1 (after 1 t)))
    as (s & t' & Hgen & _ & _ & Hdec);
    [unfold days_after; cbn [toordinal];
     rewrite ?LAST_DATE_ordinal, ?BASE_DATE_ordinal; lia..|].
  exists s, t'. split; [done|]. by rewrite (is_valid_Ok _ _ Hdec).
Qed.

Lemma generate_list_raises today n t e :
  generate_list today n t = Raise e → e = ValueError ∨ e = OverflowError.
Proof.
  revert t. induction n as [|n IH]; intros t; [done|]. cbn [generate_list].
  destruct (generate_random_rnokpp today t) as [[s t']|e'] eqn:Hone.
  - rewrite (rand_bind_Ok _ _ _ _ _ Hone).
    destruct (generate_list today n t') as [[l t'']|e'] eqn:Hrest.
    + by rewrite (rand_bind_Ok _ _ _ _ _ Hrest).
    + rewrite (rand_bind_Raise _ _ _ _ Hrest). intros [= <-]. by eapply IH.
  - rewrite (rand_bind_Raise _ _ _ _ Hone). intros [= <-].
    by eapply generate_random_rnokpp_raises.
Qed.

Lemma generate_list_valid today n t :
  toordinal BASE_DATE ≤ toordinal today →
  toordinal today ≤ toordinal LAST_DATE →
  ∃ l t', generate_list today n t = Ok (l, t')
          ∧ length l = n
          ∧ Forall (λ s, is_valid s = Ok true) l.
Proof.
  intros Hlo Hhi. revert t. induction n as [|n IH]; intros t.
  - by exists [], t.
  - destruct (generate_random_rnokpp_valid today t Hlo Hhi)
      as (s & t' & Hone & Hvalid).
    destruct (IH t') as (l & t'' & Hrest & Hlen & Hall).
    exists (s :: l), t''. cbn [generate_list].
    rewrite (rand_bind_Ok _ _ _ _ _ Hone), (rand_bind_Ok _ _ _ _ _ Hrest).
    split; [done|]. split; [by rewrite <- Hlen | by constructor].
Qed.




Example test_generate_random_rnokpp_n_zero :
  run (generate_random_rnokpp_n (date_of_ymd 2026 11 3) 0) (λ _, 0)
  = raise NumberGreaterThanZero.
Proof. reflexivity. Qed.

End random_generation.

(** ** What the control digit detects *)

Section error_detection.

(** Two sums with the same control digit either agree modulo 11 or are 0
    and 10 modulo 11. *)
Lemma same_control_collapse a b :
  a mod 11 mod 10 = b mod 11 mod 10 →
  (a - b) mod 11 ≠ 0 →
  a mod 11 mod 10 = 0
  ∧ (a mod 11 = 0 ∧ b mod 11 = 10 ∨ a mod 11 = 10 ∧ b mod 11 = 0).
Proof. intros Hsame Hne. Z.div_mod_to_equations. lia. Qed.

(** No weight, and no difference of two neighbouring weights, times a
    non-zero difference of two digits is a multiple of 11. *)
Lemma weighted_change_visible w δ :
  w ∈ WEIGHTS ++ [-6; -2; 5; -4] → -9 ≤ δ ≤ 9 → δ ≠ 0 → (w * δ) mod 11 ≠ 0.
Proof.
  intros Hw Hδ Hne. unfold WEIGHTS in Hw. cbn [app] in Hw.
  repeat (apply elem_of_cons in Hw as [-> | Hw];
          [Z.div_mod_to_equations; lia|]).
  by apply elem_of_nil in Hw.
Qed.

Lemma nine_digits (p : list Z) :
  length p = 9%nat →
  ∃ d0 d1 d2 d3 d4 d5 d6 d7 d8, p = [d0; d1; d2; d3; d4; d5; d6; d7; d8].
Proof.
  intros Hlen. do 9 (destruct p as [|? p]; [done|]).
  destruct p; [|done]. by do 9 eexists.
Qed.

Lemma control_digit_eq p q :
  length p = 9%nat → length q = 9%nat →
  _calculate_control_digit q = _calculate_control_digit p →
  weighted_sum q mod 11 mod 10 = weighted_sum p mod 11 mod 10.
Proof.
  intros Hp Hq. rewrite !control_digit_weighted by lia. by intros [= ?].
Qed.

(** X4.  Replacing one of the nine digits by another digit changes the
    control digit, except when the two weighted sums are 0 and 10 modulo
    11: then both control digits are 0. *)
Theorem single_substitution_collapse (p : list Z) (i : nat) (x y : Z) :
  length p = 9%nat →
  Forall is_digit p →
  is_digit x →
  p !! i = Some y →
  x ≠ y →
  _calculate_control_digit (<[i := x]> p) = _calculate_control_digit p →
  _calculate_control_digit p = Ok 0
  ∧ (weighted_sum (<[i := x]> p) mod 11 = 0 ∧ weighted_sum p mod 11 = 10
     ∨ weighted_sum (<[i := x]> p) mod 11 = 10 ∧ weighted_sum p mod 11 = 0).
Proof.
  intros Hlen Hp Hx Hi Hne Hsame.
  apply control_digit_eq in Hsame; [|by rewrite ?length_insert..].
  rewrite control_digit_weighted by lia.
  assert (∃ w, w ∈ WEIGHTS ++ [-6; -2; 5; -4]
               ∧ weighted_sum (<[i := x]> p) - weighted_sum p = w * (x - y))
    as (w & Hw & Hdiff).
  { destruct (nine_digits p Hlen)
      as (d0 & d1 & d2 & d3 & d4 & d5 & d6 & d7 & d8 & ->).
    destruct i as [|[|[|[|[|[|[|[|[|i]]]]]]]]]; [..|done];
      injection Hi as ->;
      [exists (-1) | exists 5 | exists 7 | exists 9 | exists 4 | exists 6
      | exists 10 | exists 5 | exists 7];
      (split; [apply list_elem_of_In; cbn; tauto|]);
      cbn [insert list_insert]; rewrite !weighted_sum_nine; lia. }
  assert (is_digit y) as Hy by (eapply Forall_lookup_1; eauto).
  pose proof (weighted_change_visible w (x - y) Hw) as Hvis.
  destruct (same_control_collapse _ _ Hsame) as [Hzero Hcases].
  { rewrite Hdiff. apply Hvis; unfold is_digit in *; lia. }
  split; [|exact Hcases]. f_equal. destruct Hcases as [[_ ->] | [_ ->]]; done.
Qed.

End error_detection.

Section error_detection_witnesses.

(** 000000000 and 020000000 both have the control digit 0. *)
Lemma single_substitution_collapse_witness :
  _calculate_control_digit [0; 0; 0; 0; 0; 0; 0; 0; 0] = Ok 0
  ∧ (weighted_sum (<[1%nat := 2]> [0; 0; 0; 0; 0; 0; 0; 0; 0]) mod 11 = 0
     ∧ weighted_sum [0; 0; 0; 0; 0; 0; 0; 0; 0] mod 11 = 10
     ∨ weighted_sum (<[1%nat := 2]> [0; 0; 0; 0; 0; 0; 0; 0; 0]) mod 11 = 10
       ∧ weighted_sum [0; 0; 0; 0; 0; 0; 0; 0; 0] mod 11 = 0).
Proof.
  apply (single_substitution_collapse [0; 0; 0; 0; 0; 0; 0; 0; 0] 1 2 0);
    try reflexivity; try done.
  all: repeat apply Forall_cons_2; try apply Forall_nil_2; unfold is_digit; lia.
Defined.

(** X5.  Exchanging two neighbouring digits that differ, among the nine,
    changes the control digit, with the same exception: the two sums are 0
    and 10 modulo 11 and both control digits are 0. *)
Theorem adjacent_transposition_collapse (p : list Z) (i : nat) (a b : Z) :
  length p = 9%nat →
  Forall is_digit p →
  p !! i = Some a →
  p !! S i = Some b →
  a ≠ b →
  _calculate_control_digit (swap_adjacent i p) = _calculate_control_digit p →
  _calculate_control_digit p = Ok 0
  ∧ (weighted_sum (swap_adjacent i p) mod 11 = 0 ∧ weighted_sum p mod 11 = 10
     ∨ weighted_sum (swap_adjacent i p) mod 11 = 10 ∧ weighted_sum p mod 11 = 0).
Proof.
  intros Hlen Hp Ha Hb Hne Hsame.
  assert (is_digit a ∧ is_digit b) as [Hda Hdb]
    by (split; eapply Forall_lookup_1; eauto).
  assert (length (swap_adjacent i p) = 9%nat) as Hlen'
    by (unfold swap_adjacent; rewrite Ha, Hb; by rewrite !length_insert).
  apply control_digit_eq in Hsame; [|done..].
  rewrite control_digit_weighted by lia.
  assert (∃ w, w ∈ WEIGHTS ++ [-6; -2; 5; -4]
               ∧ weighted_sum (swap_adjacent i p) - weighted_sum p = w * (b - a))
    as (w & Hw & Hdiff).
  { unfold swap_adjacent. rewrite Ha, Hb.
    destruct (nine_digits p Hlen)
      as (d0 & d1 & d2 & d3 & d4 & d5 & d6 & d7 & d8 & ->).
    destruct i as [|[|[|[|[|[|[|[|i]]]]]]]];
      [..|by destruct i];
      injection Ha as ->; injection Hb as ->;
      [exists (-6) | exists (-2) | exists (-2) | exists 5 | exists (-2)
      | exists (-4) | exists 5 | exists (-2)];
      (split; [apply list_elem_of_In; cbn; tauto|]);
      cbn [insert list_insert]; rewrite !weighted_sum_nine; lia. }
  pose proof (weighted_change_visible w (b - a) Hw) as Hvis.
  destruct (same_control_collapse _ _ Hsame) as [Hzero Hcases].
  { rewrite Hdiff. apply Hvis; unfold is_digit in *; lia. }
  split; [|exact Hcases]. f_equal. destruct Hcases as [[_ ->] | [_ ->]]; done.
Qed.

(** 350000000 and 530000000 both have the control digit 0. *)
Lemma adjacent_transposition_collapse_witness :
  _calculate_control_digit [3; 5; 0; 0; 0; 0; 0; 0; 0] = Ok 0
  ∧ (weighted_sum (swap_adjacent 0 [3; 5; 0; 0; 0; 0; 0; 0; 0]) mod 11 = 0
     ∧ weighted_sum [3; 5; 0; 0; 0; 0; 0; 0; 0] mod 11 = 10
     ∨ weighted_sum (swap_adjacent 0 [3; 5; 0; 0; 0; 0; 0; 0; 0]) mod 11 = 10
       ∧ weighted_sum [3; 5; 0; 0; 0; 0; 0; 0; 0] mod 11 = 0).
Proof.
  apply (adjacent_transposition_collapse [3; 5; 0; 0; 0; 0; 0; 0; 0] 0 3 5);
    try reflexivity; try done.
  all: repeat apply Forall_cons_2; try apply Forall_nil_2; unfold is_digit; lia.
Defined.

End error_detection_witnesses.

(** ** More on decoding *)

Section decoding_more.

Lemma parse_chars ds :
  length ds = 10%nat → Forall is_digit ds → _parse_rnokpp (chars ds) = Ok ds.
Proof.
  intros Hlen Hall. apply parse_Ok. split; [by apply scan_chars|].
  unfold chars. by rewrite length_fmap.
Qed.

Lemma is_valid_parsed s d0 d1 d2 d3 d4 d5 d6 d7 d8 d9 :
  _parse_rnokpp s = Ok [d0; d1; d2; d3; d4; d5; d6; d7; d8; d9] →
  is_valid s
  = Ok (d9 =? weighted_sum [d0; d1; d2; d3; d4; d5; d6; d7; d8] mod 11 mod 10).
Proof.
  intros Hp. unfold is_valid.
  rewrite (get_details_parsed _ _ _ _ _ _ _ _ _ _ _ Hp). by case_match.
Qed.

Lemma digit_split n :
  0 ≤ n ≤ 99999 →
  Forall is_digit
    [n / 10000; n / 1000 mod 10; n / 100 mod 10; n / 10 mod 10; n mod 10]
  ∧ day_count (n / 10000) (n / 1000 mod 10) (n / 100 mod 10) (n / 10 mod 10)
      (n mod 10) = n.
Proof.
  intros Hn. split.
  - repeat apply Forall_cons_2; try apply Forall_nil_2; unfold is_digit;
      Z.div_mod_to_equations; lia.
  - unfold day_count. Z.div_mod_to_equations. lia.
Qed.

(** X1.  [get_gender], [is_male] and [is_female] fail with the very error
    of [get_details], which [is_valid] turns into false; when they return,
    [is_valid] is true, [is_male] tells whether the gender is male and
    [is_female] is its negation. *)
Theorem derived_queries_agree (s : str) :
  match get_gender s with
  | Ok g =>
      is_valid s = Ok true
      ∧ is_male s = Ok (Gender_is_male g)
      ∧ is_female s = Ok (negb (Gender_is_male g))
  | Raise e =>
      get_details s = Raise e
      ∧ is_RNOKPPError e = true
      ∧ is_male s = Raise e
      ∧ is_female s = Raise e
      ∧ is_valid s = Ok false
  end.
Proof.
  unfold get_gender, is_male, is_female.
  destruct (get_details_total s) as [(r & Hr & Hv) | (e & He & _)].
  - rewrite (is_valid_Ok _ _ Hr), Hr, Hv. cbn. by destruct (gender r).
  - rewrite (is_valid_raise _ _ He), He. by cbn.
Qed.

(** X2.  An error of the parser is the error of [get_details]; the control
    digit error is raised exactly on the strings that parse and whose tenth
    digit is not the control digit of the first nine, and a result is
    returned exactly on those whose tenth digit is. *)
Theorem control_digit_error_exactly (s : str) :
  (∀ e, _parse_rnokpp s = Raise e → get_details s = Raise e)
  ∧ (get_details s = raise InvalidControlDigit ↔
       ∃ ds c, _parse_rnokpp s = Ok ds
               ∧ _calculate_control_digit (take 9 ds) = Ok c
               ∧ ds !! 9%nat ≠ Some c)
  ∧ ((∃ r, get_details s = Ok r) ↔
       ∃ ds c, _parse_rnokpp s = Ok ds
               ∧ _calculate_control_digit (take 9 ds) = Ok c
               ∧ ds !! 9%nat = Some c).
Proof.
  split; [intros e He; unfold get_details; by rewrite He|].
  destruct (_parse_rnokpp s) as [ds|e] eqn:Hp.
  - destruct (ten_digits _ _ Hp)
      as (d0 & d1 & d2 & d3 & d4 & d5 & d6 & d7 & d8 & d9 & -> & _).
    rewrite (get_details_parsed _ _ _ _ _ _ _ _ _ _ _ Hp).
    cbn [take lookup list_lookup].
    set (c := weighted_sum [d0; d1; d2; d3; d4; d5; d6; d7; d8] mod 11 mod 10).
    assert (_calculate_control_digit [d0; d1; d2; d3; d4; d5; d6; d7; d8]
            = Ok c) as Hc by (by rewrite control_digit_weighted).
    destruct (Z.eqb_spec d9 c) as [-> | Hne]; split; split.
    + done.
    + intros (ds & c' & [= <-] & Hc' & Hne'). cbn [take] in Hc'.
      rewrite Hc in Hc'. injection Hc' as <-. by cbn in Hne'.
    + intros _. by exists [d0; d1; d2; d3; d4; d5; d6; d7; d8; c], c.
    + intros _. by eexists.
    + intros _. exists [d0; d1; d2; d3; d4; d5; d6; d7; d8; d9], c.
      repeat split; [done|]. cbn. congruence.
    + done.
    + by intros [? ?].
    + intros (ds & c' & [= <-] & Hc' & Heq). cbn [take] in Hc'.
      rewrite Hc in Hc'. injection Hc' as <-. cbn in Heq. congruence.
  - assert (get_details s = Raise e) as ->
      by (unfold get_details; by rewrite Hp).
    apply parse_raises in Hp as Hkind. unfold raise.
    split; split.
    + intros [= ->]. destruct Hkind as [? | [? | ?]]; done.
    + by intros (? & ? & ? & _).
    + by intros [? ?].
    + by intros (? & ? & ? & _).
Qed.

(** X3.  Of the ten ways to complete nine digits with a tenth, exactly
    one is valid: the one with the control digit. *)
Theorem exactly_one_control_digit (p : list Z) :
  length p = 9%nat →
  Forall is_digit p →
  ∃ c0, is_digit c0
        ∧ _calculate_control_digit p = Ok c0
        ∧ ∀ c, is_digit c → (is_valid (chars (p ++ [c])) = Ok true ↔ c = c0).
Proof.
  intros Hlen Hp. exists (weighted_sum p mod 11 mod 10).
  split; [apply mod_11_10_range|].
  split; [apply control_digit_weighted; lia|].
  intros c Hc.
  destruct (nine_digits p Hlen)
    as (d0 & d1 & d2 & d3 & d4 & d5 & d6 & d7 & d8 & ->).
  cbn [app]. rewrite (is_valid_parsed _ d0 d1 d2 d3 d4 d5 d6 d7 d8 c).
  - destruct (Z.eqb_spec c
                (weighted_sum [d0; d1; d2; d3; d4; d5; d6; d7; d8] mod 11 mod 10));
      naive_solver.
  - apply parse_chars; [done|].
    change (Forall is_digit ([d0; d1; d2; d3; d4; d5; d6; d7; d8] ++ [c])).
    apply Forall_app. split; [done | by apply Forall_cons_2].
Qed.

Lemma exactly_one_control_digit_witness :
  ∃ c0, is_digit c0
        ∧ _calculate_control_digit [3; 6; 5; 2; 5; 0; 4; 5; 7] = Ok c0
        ∧ ∀ c, is_digit c →
               (is_valid (chars ([3; 6; 5; 2; 5; 0; 4; 5; 7] ++ [c])) = Ok true
                ↔ c = c0).
Proof.
  apply (exactly_one_control_digit [3; 6; 5; 2; 5; 0; 4; 5; 7]);
    [reflexivity|].
  repeat apply Forall_cons_2; try apply Forall_nil_2; unfold is_digit; lia.
Defined.

End decoding_more.

Section decoding_image.

Lemma FIRST_DECODED_ordinal : toordinal FIRST_DECODED = 693595.
Proof. reflexivity. Qed.

(** The string of a day count, three zeros, the smallest digit of a
    gender and the control digit decodes to that count and gender. *)
Lemma get_details_of_count n g :
  0 ≤ n ≤ 99999 →
  ∃ s, length s = 10%nat
       ∧ Forall (λ c, is_ascii_digit c = true) s
       ∧ get_details s = Ok (mkDetails true g (days_after BASE_DATE (n - 1))).
Proof.
  intros Hn. destruct (digit_split n Hn) as [Hdigits Hcount].
  set (gd := match g with MALE => 1 | FEMALE => 0 end).
  set (p := [n / 10000; n / 1000 mod 10; n / 100 mod 10; n / 10 mod 10;
             n mod 10; 0; 0; 0; gd]).
  set (c := weighted_sum p mod 11 mod 10).
  assert (Forall is_digit (p ++ [c])) as Hall.
  { apply Forall_app. split; [|apply Forall_cons_2; [apply mod_11_10_range|done]].
    change p with ([n / 10000; n / 1000 mod 10; n / 100 mod 10; n / 10 mod 10;
                    n mod 10] ++ [0; 0; 0; gd]).
    apply Forall_app. split; [done|].
    repeat apply Forall_cons_2; try apply Forall_nil_2;
      unfold is_digit, gd; destruct g; lia. }
  exists (chars (p ++ [c])). split; [reflexivity|]. split.
  - unfold chars. apply Forall_fmap. eapply Forall_impl; [|exact Hall].
    intros x [??]. unfold is_ascii_digit; cbn.
    apply andb_true_iff. rewrite !Z.leb_le. lia.
  - assert (length (p ++ [c]) = 10%nat) as Hlen by reflexivity.
    rewrite (get_details_parsed _ _ _ _ _ _ _ _ _ _ _
               (parse_chars _ Hlen Hall)).
    fold p c. rewrite Z.eqb_refl, Hcount. by destruct g.
Qed.

(** X6.  The results of [get_details] are the valid details with a
    birthday from 1899-12-31 to 2173-10-14, whatever today is: each of them
    is decoded from some string, and nothing else ever is. *)
Theorem get_details_image (r : Details) :
  (∃ s, get_details s = Ok r) ↔
  valid r = true
  ∧ toordinal FIRST_DECODED ≤ toordinal (birthday r) ≤ toordinal LAST_DATE.
Proof.
  rewrite FIRST_DECODED_ordinal, LAST_DATE_ordinal. split.
  - intros [s Hs].
    destruct (get_details_Ok _ _ Hs)
      as (d0 & d1 & d2 & d3 & d4 & d5 & d6 & d7 & d8 & d9 & Hp & ->).
    destruct (ten_digits _ _ Hp)
      as (? & ? & ? & ? & ? & ? & ? & ? & ? & ? & Heq & Hall).
    injection Heq as <- <- <- <- <- <- <- <- <- <-.
    split; [done|]. unfold days_after, day_count. cbn [birthday toordinal].
    rewrite BASE_DATE_ordinal. digit_bounds.
  - destruct r as [v g [o]]. cbn [valid birthday toordinal].
    intros [-> Ho].
    destruct (get_details_of_count (o - 693596 + 1) g) as (s & _ & _ & Hs);
      [lia|].
    exists s. rewrite Hs. do 2 f_equal. unfold days_after.
    rewrite BASE_DATE_ordinal. f_equal. lia.
Qed.

End decoding_image.

(** ** The generator, draw by draw *)

Section generator_draws.

Lemma randint_value a b t :
  a ≤ b → randint a b t = Ok (a + t 0%nat mod (b - a + 1), after 1 t).
Proof.
  intros Hab. unfold randint.
  by assert ((b <? a) = false) as -> by (apply Z.ltb_ge; lia).
Qed.

Lemma randint_0_9 t : randint 0 9 t = Ok (t 0%nat mod 10, after 1 t).
Proof. reflexivity. Qed.

Lemma gender_choice g t :
  match g with
  | MALE => choice MALE_DIGITS
  | FEMALE => choice FEMALE_DIGITS
  end t = Ok (gender_digit g (t 0%nat), after 1 t).
Proof.
  pose proof (Z.mod_pos_bound (t 0%nat) 5) as Hk.
  unfold gender_digit, choice, MALE_DIGITS, FEMALE_DIGITS, mbind, Rand_bind,
    draw, lift, index.
  change (Z.of_nat (length [1; 3; 5; 7; 9])) with 5.
  change (Z.of_nat (length [0; 2; 4; 6; 8])) with 5.
  destruct g; cbv beta iota;
    (assert (t 0%nat mod 5 = 0 ∨ t 0%nat mod 5 = 1 ∨ t 0%nat mod 5 = 2
             ∨ t 0%nat mod 5 = 3 ∨ t 0%nat mod 5 = 4)
      as [-> | [-> | [-> | [-> | ->]]]] by lia); reflexivity.
Qed.

Lemma Gender_random_value t :
  Gender_random t
  = Ok (if t 0%nat mod 2 =? 0 then MALE else FEMALE, after 1 t).
Proof.
  pose proof (Z.mod_pos_bound (t 0%nat) 2) as Hk.
  unfold Gender_random, choice, mbind, Rand_bind, draw, lift, index.
  change (Z.of_nat (length [MALE; FEMALE])) with 2.
  cbv beta iota.
  assert (t 0%nat mod 2 = 0 ∨ t 0%nat mod 2 = 1) as [-> | ->] by lia;
    reflexivity.
Qed.

Lemma gender_digit_spec g raw :
  is_digit (gender_digit g raw)
  ∧ Z.odd (gender_digit g raw) = match g with MALE => true | FEMALE => false end.
Proof.
  pose proof (Z.mod_pos_bound raw 5) as Hk. unfold gender_digit, is_digit.
  split; [destruct g; lia|].
  destruct g; [rewrite Z.add_comm|rewrite Z.add_0_r];
    rewrite ?Z.odd_add_mul_2, ?Z.odd_mul; done.
Qed.

(** The string generated within the bounds, from the four draws. *)
Lemma generate_rnokpp_explicit today d g t :
  toordinal BASE_DATE ≤ toordinal d →
  toordinal d ≤ toordinal today →
  ∃ p c,
    format_05d (date_diff_days d BASE_DATE + 1) = chars p
    ∧ Forall is_digit p
    ∧ (5 ≤ length p)%nat
    ∧ c = weighted_sum
            (p ++ [t 0%nat mod 10; t 1%nat mod 10; t 2%nat mod 10;
                   gender_digit g (t 3%nat)]) mod 11 mod 10
    ∧ generate_rnokpp today d g t
      = Ok (chars (p ++ [t 0%nat mod 10; t 1%nat mod 10; t 2%nat mod 10;
                         gender_digit g (t 3%nat); c]),
            after 1 (after 1 (after 1 (after 1 t)))).
Proof.
  intros Hlo Hhi.
  destruct (format_05d_chars (date_diff_days d BASE_DATE + 1))
    as (p & Hp & Hpd & Hlen); [unfold date_diff_days; lia|].
  set (tail := [t 0%nat mod 10; t 1%nat mod 10; t 2%nat mod 10;
                gender_digit g (t 3%nat)]).
  assert (Forall is_digit (p ++ tail)) as Hall.
  { apply Forall_app. split; [done|].
    repeat apply Forall_cons_2; try apply Forall_nil_2;
      try apply gender_digit_spec; unfold is_digit;
      match goal with |- _ ≤ ?x mod 10 ≤ _ =>
        pose proof (Z.mod_pos_bound x 10); lia end. }
  assert (9 ≤ length (p ++ tail))%nat as Hnine
    by (rewrite length_app; cbn; lia).
  pose proof (control_digit_weighted _ Hnine) as Hc.
  set (c := weighted_sum (p ++ tail) mod 11 mod 10) in *.
  assert (is_digit c) as Hdc by apply mod_11_10_range.
  exists p, c. repeat (split; [done|]).
  apply date_lt_false in Hlo, Hhi. unfold generate_rnokpp.
  rewrite Hlo, Hhi. cbv zeta.
  rewrite (rand_bind_Ok _ _ _ _ _ (randint_0_9 t)),
    (rand_bind_Ok _ _ _ _ _ (randint_0_9 (after 1 t))),
    (rand_bind_Ok _ _ _ _ _ (randint_0_9 (after 1 (after 1 t)))),
    (rand_bind_Ok _ _ _ _ _ (gender_choice g (after 1 (after 1 (after 1 t))))).
  change (after 1 t 0%nat) with (t 1%nat).
  change (after 1 (after 1 t) 0%nat) with (t 2%nat).
  change (after 1 (after 1 (after 1 t)) 0%nat) with (t 3%nat).
  rewrite Hp, !str_of_int_digit
    by (first [apply gender_digit_spec
              | unfold is_digit;
                match goal with |- _ ≤ ?x mod 10 ≤ _ =>
                  pose proof (Z.mod_pos_bound x 10); lia end]).
  unfold chars. rewrite <- !fmap_app, <- !app_assoc. cbn [app].
  fold tail. fold (chars (p ++ tail)).
  rewrite (rand_bind_Ok _ _ _ _ _ (lift_Ok _ _ _ (scan_chars _ Hall))).
  rewrite (rand_bind_Ok _ _ _ _ _ (lift_Ok _ _ _ Hc)).
  rewrite str_of_int_digit by done.
  unfold chars, tail. rewrite <- fmap_app, <- app_assoc. done.
Qed.

End generator_draws.

Section generator_properties.

Lemma chars_ascii ds :
  Forall is_digit ds → Forall (λ c, is_ascii_digit c = true) (chars ds).
Proof.
  intros Hall. unfold chars. apply Forall_fmap.
  eapply Forall_impl; [|exact Hall].
  intros x [??]. unfold is_ascii_digit; cbn.
  apply andb_true_iff. rewrite !Z.leb_le. lia.
Qed.

Lemma dec_digits_grows fuel n acc :
  (S (length acc) ≤ length (dec_digits (S fuel) n acc))%nat.
Proof.
  revert n acc. induction fuel as [|fuel IH]; intros n acc.
  - cbn [dec_digits]. destruct (n <? 10); cbn; lia.
  - change (dec_digits (S (S fuel)) n acc)
      with (if n <? 10 then (48 + n mod 10) :: acc
            else dec_digits (S fuel) (n / 10) ((48 + n mod 10) :: acc)).
    destruct (n <? 10); [cbn; lia|].
    etrans; [|apply IH]. cbn. lia.
Qed.

(** From 100000 on the day count takes six characters or more. *)
Lemma format_05d_long n : 100000 ≤ n → (6 ≤ length (format_05d n))%nat.
Proof.
  intros Hn. unfold format_05d, dec_of_nonneg, zero_pad.
  assert ((n <? 0) = false) as -> by (apply Z.ltb_ge; lia).
  rewrite length_app.
  destruct (fuel_enough n 5) as [fuel ->];
    [change (2 ^ Z.of_nat 5) with 32; lia|]. cbn [Nat.add].
  rewrite !dec_digits_step by (Z.div_mod_to_equations; lia).
  etrans; [|apply Nat.le_add_l]. etrans; [|apply dec_digits_grows]. cbn. lia.
Qed.

Lemma generate_rnokpp_Ok_bounds today d g t s t' :
  generate_rnokpp today d g t = Ok (s, t') →
  toordinal BASE_DATE ≤ toordinal d ≤ toordinal today.
Proof.
  intros Hgen.
  destruct (Z_lt_le_dec (toordinal d) (toordinal BASE_DATE)) as [Hearly|Hlo].
  { by rewrite generate_rnokpp_early in Hgen. }
  destruct (Z_lt_le_dec (toordinal today) (toordinal d)) as [Hfuture|Hhi].
  { by rewrite generate_rnokpp_future in Hgen. }
  lia.
Qed.

Lemma run_Ok_inv {A} (m : Rand A) t a :
  run m t = Ok a → ∃ t', m t = Ok (a, t').
Proof.
  unfold run. destruct (m t) as [[a' t']|e]; [|done].
  intros [= ->]. by exists t'.
Qed.

(** X7.  The generator reads four draws: two tapes that agree on their
    first four draws give the same outcome, and a returned tape is the
    tape it was given less its first four draws. *)
Theorem generate_rnokpp_four_draws (today d : date) (g : Gender) (t1 t2 : tape) :
  (∀ n, (n < 4)%nat → t1 n = t2 n) →
  run (generate_rnokpp today d g) t1 = run (generate_rnokpp today d g) t2
  ∧ ∀ s t', generate_rnokpp today d g t1 = Ok (s, t') →
            ∀ n, t' n = t1 (4 + n)%nat.
Proof.
  intros Hagree.
  destruct (Z_lt_le_dec (toordinal d) (toordinal BASE_DATE)) as [Hearly|Hlo].
  { unfold run. by rewrite !generate_rnokpp_early. }
  destruct (Z_lt_le_dec (toordinal today) (toordinal d)) as [Hfuture|Hhi].
  { unfold run. by rewrite !generate_rnokpp_future. }
  destruct (generate_rnokpp_explicit today d g t1 Hlo Hhi)
    as (p1 & c1 & Hp1 & _ & _ & Hc1 & Hgen1).
  destruct (generate_rnokpp_explicit today d g t2 Hlo Hhi)
    as (p2 & c2 & Hp2 & _ & _ & Hc2 & Hgen2).
  assert (p2 = p1) as -> by (apply chars_inj; congruence).
  rewrite <- !Hagree in Hc2, Hgen2 by lia. subst c1 c2.
  split.
  - by rewrite (run_Ok _ _ _ _ Hgen1), (run_Ok _ _ _ _ Hgen2).
  - intros s t'. rewrite Hgen1. by intros [= _ <-].
Qed.

Lemma generate_rnokpp_four_draws_witness :
  run (generate_rnokpp (date_of_ymd 2026 11 3) (date_of_ymd 2000 1 1) MALE)
    (λ n, Z.of_nat n)
  = run (generate_rnokpp (date_of_ymd 2026 11 3) (date_of_ymd 2000 1 1) MALE)
      (tape_of [0; 1; 2; 3])
  ∧ ∀ s t',
      generate_rnokpp (date_of_ymd 2026 11 3) (date_of_ymd 2000 1 1) MALE
        (λ n, Z.of_nat n) = Ok (s, t') →
      ∀ n, t' n = Z.of_nat (4 + n).
Proof.
  apply (generate_rnokpp_four_draws (date_of_ymd 2026 11 3)
           (date_of_ymd 2000 1 1) MALE (λ n, Z.of_nat n)
           (tape_of [0; 1; 2; 3])).
  intros n Hn. do 4 (destruct n as [|n]; [reflexivity|]). lia.
Defined.

(** X8.  What the generator returns is made of ASCII digits, ten of them
    or more; it has ten, and is valid, exactly when the date is no later
    than 2173-10-14. *)
Theorem generate_rnokpp_length (today d : date) (g : Gender) (t : tape) (s : str) :
  run (generate_rnokpp today d g) t = Ok s →
  Forall (λ c, is_ascii_digit c = true) s
  ∧ (10 ≤ length s)%nat
  ∧ (length s = 10%nat ↔ toordinal d ≤ toordinal LAST_DATE)
  ∧ is_valid s = Ok (toordinal d <=? toordinal LAST_DATE).
Proof.
  intros [t' Hgen]%run_Ok_inv.
  destruct (generate_rnokpp_Ok_bounds _ _ _ _ _ _ Hgen) as [Hlo Hhi].
  destruct (Z.leb_spec (toordinal d) (toordinal LAST_DATE)) as [Hlast|Hlast].
  - destruct (generate_rnokpp_decodes today d g t Hlo Hhi Hlast)
      as (s' & t'' & Hgen' & Hlen & Hdig & Hdec).
    rewrite Hgen in Hgen'. injection Hgen' as <- <-.
    rewrite (is_valid_Ok _ _ Hdec), Hlen. repeat split; done || lia.
  - destruct (generate_rnokpp_explicit today d g t Hlo Hhi)
      as (p & c & Hp & Hpd & _ & Hc & Hgen').
    rewrite Hgen in Hgen'. injection Hgen' as -> _.
    assert (6 ≤ length p)%nat as Hlong.
    { replace (length p) with (length (chars p))
        by (unfold chars; by rewrite length_fmap).
      rewrite <- Hp. apply format_05d_long.
      unfold date_diff_days. rewrite LAST_DATE_ordinal in Hlast.
      rewrite BASE_DATE_ordinal. lia. }
    set (ds := p ++ _).
    assert (Forall is_digit ds) as Hall.
    { apply Forall_app. split; [done|].
      repeat apply Forall_cons_2; try apply Forall_nil_2;
        try apply gender_digit_spec; try (subst c; apply mod_11_10_range);
        unfold is_digit;
        match goal with |- _ ≤ ?x mod 10 ≤ _ =>
          pose proof (Z.mod_pos_bound x 10); lia end. }
    assert (length (chars ds) = length p + 5)%nat as Hlen
      by (unfold chars, ds; rewrite length_fmap, length_app; done).
    split; [by apply chars_ascii|]. rewrite Hlen.
    split; [lia|]. split; [lia|].
    apply (is_valid_raise _ MoreThan10Digits). unfold get_details.
    rewrite (parse_scan_passes _ _ (scan_chars _ Hall)), Hlen.
    by destruct (Nat.ltb_spec 10 (length p + 5)); [|lia].
Qed.

Lemma generate_rnokpp_length_witness :
  Forall (λ c, is_ascii_digit c = true) (str_of_string "10000000010")
  ∧ (10 ≤ length (str_of_string "10000000010"))%nat
  ∧ (length (str_of_string "10000000010") = 10%nat
     ↔ toordinal OVERFLOW_DATE ≤ toordinal LAST_DATE)
  ∧ is_valid (str_of_string "10000000010")
    = Ok (toordinal OVERFLOW_DATE <=? toordinal LAST_DATE).
Proof.
  apply (generate_rnokpp_length OVERFLOW_DATE OVERFLOW_DATE MALE (λ _, 0)).
  vm_compute. reflexivity.
Defined.

End generator_properties.

(** ** What the generators can return *)

Section generator_coverage.

Lemma ascii_scan s ds :
  Forall (λ c, is_ascii_digit c = true) s →
  mapM int_of_char s = Ok ds → s = chars ds.
Proof.
  intros Hascii Hs%scan_Ok. revert Hascii.
  induction Hs as [|c v s ds Hv _ IH]; intros Hascii; [done|].
  inversion_clear Hascii as [|? ? Hc Hrest]. cbn. f_equal; [|by apply IH].
  unfold is_ascii_digit in Hc. apply andb_true_iff in Hc as [Hlo Hhi].
  apply Z.leb_le in Hlo, Hhi.
  assert (decimal_value (48 + (c - 48)) = Some (c - 48)) as Hv'
    by (apply decimal_value_ascii; lia).
  replace (48 + (c - 48)) with c in Hv' by lia. rewrite Hv in Hv'.
  injection Hv' as ->. lia.
Qed.

Lemma gender_digit_half d8 :
  is_digit d8 →
  gender_digit (if Z.odd d8 then MALE else FEMALE) (d8 / 2) = d8.
Proof.
  intros [Hlo Hhi].
  assert (d8 = 0 ∨ d8 = 1 ∨ d8 = 2 ∨ d8 = 3 ∨ d8 = 4 ∨ d8 = 5 ∨ d8 = 6
          ∨ d8 = 7 ∨ d8 = 8 ∨ d8 = 9) as Hcases by lia.
  repeat (destruct Hcases as [-> | Hcases]; [reflexivity|]). by subst.
Qed.

(** A valid string of ASCII digits comes out of the generator when the
    draws are its digits. *)
Lemma generate_rnokpp_hits today d g t s d0 d1 d2 d3 d4 d5 d6 d7 d8 d9 :
  _parse_rnokpp s = Ok [d0; d1; d2; d3; d4; d5; d6; d7; d8; d9] →
  Forall (λ c, is_ascii_digit c = true) s →
  get_details s = Ok (mkDetails true g d) →
  toordinal BASE_DATE ≤ toordinal d →
  toordinal d ≤ toordinal today →
  t 0%nat mod 10 = d5 → t 1%nat mod 10 = d6 → t 2%nat mod 10 = d7 →
  gender_digit g (t 3%nat) = d8 →
  ∃ t', generate_rnokpp today d g t = Ok (s, t').
Proof.
  intros Hp Hascii Hdec Hlo Hhi H5 H6 H7 H8.
  destruct (ten_digits _ _ Hp) as (? & ? & ? & ? & ? & ? & ? & ? & ? & ? & _ & Hall).
  rewrite (get_details_parsed _ _ _ _ _ _ _ _ _ _ _ Hp) in Hdec.
  destruct (Z.eqb_spec d9
              (weighted_sum [d0; d1; d2; d3; d4; d5; d6; d7; d8] mod 11 mod 10))
    as [Hd9|]; [|done].
  injection Hdec as _ Hd.
  apply parse_Ok in Hp as [Hs _]. apply (ascii_scan _ _ Hascii) in Hs as ->.
  set (N := day_count d0 d1 d2 d3 d4) in *.
  assert (1 ≤ N ≤ 99999) as HN.
  { subst d. unfold days_after in Hlo. cbn [toordinal] in Hlo.
    unfold N, day_count in *. split; [lia|]. clear - Hall. digit_bounds. }
  assert (date_diff_days d BASE_DATE + 1 = N) as HdN
    by (subst d; unfold date_diff_days, days_after; cbn [toordinal]; lia).
  destruct (generate_rnokpp_explicit today d g t Hlo Hhi)
    as (p & c & Hformat & _ & _ & Hc & Hgen).
  rewrite HdN, format_05d_five in Hformat by lia.
  apply chars_inj in Hformat as <-.
  assert (N / 10000 = d0 ∧ N / 1000 mod 10 = d1 ∧ N / 100 mod 10 = d2
          ∧ N / 10 mod 10 = d3 ∧ N mod 10 = d4) as (E0 & E1 & E2 & E3 & E4).
  { unfold N, day_count. clear - Hall.
    repeat match goal with
           | H : Forall _ (_ :: _) |- _ => inversion_clear H
           end.
    unfold is_digit in *. repeat split; Z.div_mod_to_equations; lia. }
  rewrite E0, E1, E2, E3, E4, H5, H6, H7, H8 in Hgen, Hc. cbn [app] in Hgen, Hc.
  rewrite <- Hd9 in Hc. subst c. eauto.
Qed.

(** X9.  The generator is onto the valid numbers: a string of ASCII
    digits that decodes to a gender and a date within the bounds is
    returned for that date and gender on some draws. *)
Theorem generate_rnokpp_onto (today d : date) (g : Gender) (s : str) :
  get_details s = Ok (mkDetails true g d) →
  Forall (λ c, is_ascii_digit c = true) s →
  toordinal BASE_DATE ≤ toordinal d →
  toordinal d ≤ toordinal today →
  ∃ t, run (generate_rnokpp today d g) t = Ok s.
Proof.
  intros Hdec Hascii Hlo Hhi.
  destruct (get_details_Ok _ _ Hdec)
    as (d0 & d1 & d2 & d3 & d4 & d5 & d6 & d7 & d8 & d9 & Hp & [= Hg _]).
  destruct (ten_digits _ _ Hp) as (? & ? & ? & ? & ? & ? & ? & ? & ? & ? & Heq & Hall).
  injection Heq as <- <- <- <- <- <- <- <- <- <-.
  assert (is_digit d5 ∧ is_digit d6 ∧ is_digit d7 ∧ is_digit d8)
    as (Hd5 & Hd6 & Hd7 & Hd8).
  { repeat match goal with
           | H : Forall _ (_ :: _) |- _ => inversion_clear H
           end. done. }
  exists (tape_of [d5; d6; d7; d8 / 2]).
  destruct (generate_rnokpp_hits today d g (tape_of [d5; d6; d7; d8 / 2]) s
              _ _ _ _ _ _ _ _ _ _ Hp Hascii Hdec Hlo Hhi) as [t' Hgen].
  - apply Z.mod_small. unfold is_digit in Hd5. cbn. lia.
  - apply Z.mod_small. unfold is_digit in Hd6. cbn. lia.
  - apply Z.mod_small. unfold is_digit in Hd7. cbn. lia.
  - rewrite Hg. by apply gender_digit_half.
  - by eapply run_Ok.
Qed.

Lemma generate_rnokpp_onto_witness :
  ∃ t, run (generate_rnokpp (date_of_ymd 2026 11 3) (date_of_ymd 2000 1 1)
              MALE) t = Ok (str_of_string "3652504575").
Proof.
  apply (generate_rnokpp_onto (date_of_ymd 2026 11 3) (date_of_ymd 2000 1 1)
           MALE (str_of_string "3652504575")).
  - vm_compute. reflexivity.
  - repeat apply Forall_cons_2; try apply Forall_nil_2; reflexivity.
  - vm_compute. discriminate.
  - vm_compute. discriminate.
Defined.

End generator_coverage.

(** ** Random numbers *)

Section random_numbers.

(** The date and the gender drawn, then the generator on the rest. *)
Lemma generate_random_rnokpp_unfold today t :
  toordinal BASE_DATE ≤ toordinal today →
  let r := t 0%nat mod (date_diff_days today BASE_DATE + 1) in
  toordinal BASE_DATE + r ≤ MAXORDINAL →
  0 ≤ r ≤ date_diff_days today BASE_DATE
  ∧ generate_random_rnokpp today t
    = generate_rnokpp today (days_after BASE_DATE r)
        (if t 1%nat mod 2 =? 0 then MALE else FEMALE)
        (after 1 (after 1 t)).
Proof.
  intros Htoday r Hmax.
  assert (0 ≤ r ≤ date_diff_days today BASE_DATE) as Hr.
  { unfold r, date_diff_days.
    pose proof (Z.mod_pos_bound (t 0%nat)
                  (toordinal today - toordinal BASE_DATE + 1)). lia. }
  split; [done|]. unfold generate_random_rnokpp. cbv zeta.
  rewrite (rand_bind_Ok _ _ _ _ _
             (randint_value 0 (date_diff_days today BASE_DATE) t
                ltac:(lia))).
  replace (0 + t 0%nat mod (date_diff_days today BASE_DATE - 0 + 1)) with r
    by (unfold r; rewrite Z.sub_0_r; done).
  assert (date_add_days BASE_DATE r = Ok (days_after BASE_DATE r)) as Hadd
    by (apply date_add_days_Ok; rewrite BASE_DATE_ordinal in *; lia).
  rewrite (rand_bind_Ok _ _ _ _ _ (lift_Ok _ _ _ Hadd)).
  by rewrite (rand_bind_Ok _ _ _ _ _ (Gender_random_value (after 1 t))).
Qed.

(** X10.  With the clock before the base date a random number is refused
    with [ValueError], which is no [RNOKPPError].  With the clock at a
    date from the base date on, a string of ten or more ASCII digits is
    returned; up to 2173-10-14 it decodes, to a birthday from the base date
    to today. *)
Theorem generate_random_rnokpp_outcomes (today : date) (t : tape) :
  (toordinal today < toordinal BASE_DATE →
     run (generate_random_rnokpp today) t = Raise ValueError)
  ∧ (toordinal BASE_DATE ≤ toordinal today → toordinal today ≤ MAXORDINAL →
       ∃ s, run (generate_random_rnokpp today) t = Ok s
            ∧ Forall (λ c, is_ascii_digit c = true) s
            ∧ (10 ≤ length s)%nat)
  ∧ (toordinal BASE_DATE ≤ toordinal today →
     toordinal today ≤ toordinal LAST_DATE →
       ∃ s r, run (generate_random_rnokpp today) t = Ok s
              ∧ get_details s = Ok r
              ∧ toordinal BASE_DATE ≤ toordinal (birthday r) ≤ toordinal today).
Proof.
  split; [|split].
  - intros Hpast. apply run_Raise. unfold generate_random_rnokpp. cbv zeta.
    apply rand_bind_Raise, randint_empty. unfold date_diff_days. lia.
  - intros Hlo Hmax.
    pose proof (Z.mod_pos_bound (t 0%nat) (date_diff_days today BASE_DATE + 1))
      as Hr.
    destruct (generate_random_rnokpp_unfold today t Hlo) as [Hr' Hunf];
      [unfold date_diff_days in *; lia|].
    set (d := days_after BASE_DATE
                (t 0%nat mod (date_diff_days today BASE_DATE + 1))) in *.
    set (g := if t 1%nat mod 2 =? 0 then MALE else FEMALE) in *.
    assert (toordinal BASE_DATE ≤ toordinal d ≤ toordinal today) as [Hd Hd']
      by (unfold d, days_after, date_diff_days in *; cbn [toordinal]; lia).
    destruct (generate_rnokpp_explicit today d g (after 1 (after 1 t)) Hd Hd')
      as (p & c & _ & Hpd & Hlen & Hc & Hgen).
    eexists. split; [eapply run_Ok; rewrite Hunf; exact Hgen|]. split.
    + apply chars_ascii, Forall_app. split; [done|].
      repeat apply Forall_cons_2; try apply Forall_nil_2;
        try apply gender_digit_spec; try (subst c; apply mod_11_10_range);
        unfold is_digit;
        match goal with |- _ ≤ ?x mod 10 ≤ _ =>
          pose proof (Z.mod_pos_bound x 10); lia end.
    + unfold chars. rewrite length_fmap, length_app. cbn. lia.
  - intros Hlo Hlast.
    pose proof (Z.mod_pos_bound (t 0%nat) (date_diff_days today BASE_DATE + 1))
      as Hr.
    rewrite LAST_DATE_ordinal in Hlast.
    destruct (generate_random_rnokpp_unfold today t Hlo) as [Hr' Hunf];
      [unfold date_diff_days, MAXORDINAL in *;
       rewrite BASE_DATE_ordinal in *; lia|].
    set (d := days_after BASE_DATE
                (t 0%nat mod (date_diff_days today BASE_DATE + 1))) in *.
    set (g := if t 1%nat mod 2 =? 0 then MALE else FEMALE) in *.
    assert (toordinal BASE_DATE ≤ toordinal d ≤ toordinal today) as [Hd Hd']
      by (unfold d, days_after, date_diff_days in *; cbn [toordinal]; lia).
    destruct (generate_rnokpp_decodes today d g (after 1 (after 1 t)) Hd Hd')
      as (s & t' & Hgen & _ & _ & Hdec); [rewrite LAST_DATE_ordinal; lia|].
    exists s, (mkDetails true g d).
    split; [eapply run_Ok; rewrite Hunf; exact Hgen|]. done.
Qed.

Lemma generate_random_rnokpp_outcomes_witness :
  ∃ s r, run (generate_random_rnokpp (date_of_ymd 2026 11 3))
           (λ n, 7 * Z.of_nat n + 12345) = Ok s
         ∧ get_details s = Ok r
         ∧ toordinal BASE_DATE ≤ toordinal (birthday r)
           ≤ toordinal (date_of_ymd 2026 11 3).
Proof.
  apply (generate_random_rnokpp_outcomes (date_of_ymd 2026 11 3)
           (λ n, 7 * Z.of_nat n + 12345)); vm_compute; discriminate.
Defined.

(** X11.  Random generation reaches every valid number: a string of ASCII
    digits that decodes to a birthday from the base date to today is
    returned on some draws.  So both genders and every such date occur. *)
Theorem generate_random_rnokpp_covers (today : date) (s : str) (r : Details) :
  get_details s = Ok r →
  Forall (λ c, is_ascii_digit c = true) s →
  toordinal BASE_DATE ≤ toordinal (birthday r) →
  toordinal (birthday r) ≤ toordinal today →
  ∃ t, run (generate_random_rnokpp today) t = Ok s.
Proof.
  intros Hdec Hascii Hlo Hhi.
  destruct (get_details_Ok _ _ Hdec)
    as (d0 & d1 & d2 & d3 & d4 & d5 & d6 & d7 & d8 & d9 & Hp & ->).
  cbn [birthday] in Hlo, Hhi.
  set (g := if Z.odd d8 then MALE else FEMALE) in *.
  set (d := days_after BASE_DATE _) in *.
  destruct (ten_digits _ _ Hp) as (? & ? & ? & ? & ? & ? & ? & ? & ? & ? & Heq & Hall).
  injection Heq as <- <- <- <- <- <- <- <- <- <-.
  assert (is_digit d5 ∧ is_digit d6 ∧ is_digit d7 ∧ is_digit d8
          ∧ toordinal d ≤ toordinal LAST_DATE)
    as (Hd5 & Hd6 & Hd7 & Hd8 & Hlast).
  { rewrite LAST_DATE_ordinal. unfold d, days_after, day_count.
    cbn [toordinal]. rewrite BASE_DATE_ordinal. clear - Hall.
    repeat match goal with
           | H : Forall _ (_ :: _) |- _ => inversion_clear H
           end.
    unfold is_digit in *. repeat split; lia. }
  set (T := tape_of [date_diff_days d BASE_DATE;
                     match g with MALE => 0 | FEMALE => 1 end;
                     d5; d6; d7; d8 / 2]).
  assert (T 0%nat mod (date_diff_days today BASE_DATE + 1)
          = date_diff_days d BASE_DATE) as Hr
    by (change (T 0%nat) with (date_diff_days d BASE_DATE);
        apply Z.mod_small; unfold date_diff_days; lia).
  exists T.
  destruct (generate_random_rnokpp_unfold today T) as [_ Hunf]; [lia|..].
  { rewrite Hr. unfold date_diff_days, MAXORDINAL.
    rewrite LAST_DATE_ordinal in Hlast. lia. }
  rewrite Hr in Hunf.
  assert (days_after BASE_DATE (date_diff_days d BASE_DATE) = d) as Hback.
  { unfold d, days_after, date_diff_days. cbn [toordinal]. f_equal. lia. }
  assert ((if T 1%nat mod 2 =? 0 then MALE else FEMALE) = g) as Hgender
    by (unfold T; cbn; by destruct g).
  rewrite Hback, Hgender in Hunf.
  destruct (generate_rnokpp_hits today d g (after 1 (after 1 T)) s
              _ _ _ _ _ _ _ _ _ _ Hp Hascii Hdec Hlo Hhi) as [t' Hgen].
  - apply Z.mod_small. unfold is_digit in Hd5. cbn. lia.
  - apply Z.mod_small. unfold is_digit in Hd6. cbn. lia.
  - apply Z.mod_small. unfold is_digit in Hd7. cbn. lia.
  - by apply gender_digit_half.
  - eapply run_Ok. rewrite Hunf. exact Hgen.
Qed.

Lemma generate_random_rnokpp_covers_witness :
  ∃ t, run (generate_random_rnokpp (date_of_ymd 2026 11 3)) t
       = Ok (str_of_string "3068208400").
Proof.
  apply (generate_random_rnokpp_covers (date_of_ymd 2026 11 3)
           (str_of_string "3068208400")
           (mkDetails true FEMALE (date_of_ymd 1984 1 2))).
  - vm_compute. reflexivity.
  - repeat apply Forall_cons_2; try apply Forall_nil_2; reflexivity.
  - vm_compute. discriminate.
  - vm_compute. discriminate.
Defined.

End random_numbers.

(** ** Batches *)

Section batches.

Lemma generate_random_rnokpp_tape today t s t' :
  generate_random_rnokpp today t = Ok (s, t') → ∀ n, t' n = t (6 + n)%nat.
Proof.
  unfold generate_random_rnokpp. cbv zeta. intros Hgen.
  destruct (Z_lt_le_dec (date_diff_days today BASE_DATE) 0) as [Hpast|Hok].
  { by rewrite (rand_bind_Raise _ _ _ _ (randint_empty 0 _ t Hpast)) in Hgen. }
  rewrite (rand_bind_Ok _ _ _ _ _ (randint_value 0 _ t Hok)) in Hgen.
  destruct (date_add_days_cases BASE_DATE
              (0 + t 0%nat mod (date_diff_days today BASE_DATE - 0 + 1)))
    as [Hadd | Hadd].
  - rewrite (rand_bind_Ok _ _ _ _ _ (lift_Ok _ _ _ Hadd)) in Hgen.
    rewrite (rand_bind_Ok _ _ _ _ _ (Gender_random_value (after 1 t))) in Hgen.
    destruct (generate_rnokpp_Ok_bounds _ _ _ _ _ _ Hgen) as [Hlo Hhi].
    destruct (generate_rnokpp_explicit _ _
                (if after 1 t 0%nat mod 2 =? 0 then MALE else FEMALE)
                (after 1 (after 1 t)) Hlo Hhi)
      as (p & c & _ & _ & _ & _ & Hgen').
    rewrite Hgen in Hgen'. by injection Hgen' as _ ->.
  - erewrite rand_bind_Raise in Hgen; [done|]. by rewrite Hadd.
Qed.

Lemma generate_list_tape today n t l t' :
  generate_list today n t = Ok (l, t') →
  length l = n ∧ ∀ k, t' k = t (6 * n + k)%nat.
Proof.
  revert t l t'. induction n as [|n IH]; intros t l t'.
  - intros [= <- <-]. done.
  - cbn [generate_list].
    destruct (generate_random_rnokpp today t) as [[s t1]|e] eqn:Hone;
      [|by rewrite (rand_bind_Raise _ _ _ _ Hone)].
    rewrite (rand_bind_Ok _ _ _ _ _ Hone).
    destruct (generate_list today n t1) as [[rest t2]|e] eqn:Hrest;
      [|by rewrite (rand_bind_Raise _ _ _ _ Hrest)].
    rewrite (rand_bind_Ok _ _ _ _ _ Hrest). intros [= <- <-].
    destruct (IH _ _ _ Hrest) as [Hlen Htape].
    split; [cbn; by rewrite Hlen|]. intros k.
    rewrite Htape, (generate_random_rnokpp_tape _ _ _ _ Hone). f_equal. lia.
Qed.

Lemma generate_list_app today n m t :
  generate_list today (n + m) t
  = (l1 ← generate_list today n; l2 ← generate_list today m; mret (l1 ++ l2)) t.
Proof.
  revert t. induction n as [|n IH]; intros t.
  - cbn [Nat.add generate_list]. unfold mbind, Rand_bind, mret, Rand_ret.
    by destruct (generate_list today m t) as [[l2 t2]|e].
  - cbn [Nat.add generate_list]. unfold mbind, Rand_bind, mret, Rand_ret in *.
    destruct (generate_random_rnokpp today t) as [[s t1]|e]; [|done].
    rewrite IH.
    destruct (generate_list today n t1) as [[l1 t2]|e]; [|done].
    by destruct (generate_list today m t2) as [[l2 t3]|e].
Qed.

(** X12.  A batch that is returned has as many strings as asked for and
    has used six draws for each: the tape left over is the tape given less
    its first [6 * count] draws. *)
Theorem generate_random_rnokpp_n_draws (today : date) (count : Z) (t : tape)
    (l : list str) (t' : tape) :
  generate_random_rnokpp_n today count t = Ok (l, t') →
  0 < count
  ∧ Z.of_nat (length l) = count
  ∧ ∀ k, t' k = t (6 * Z.to_nat count + k)%nat.
Proof.
  unfold generate_random_rnokpp_n.
  destruct (Z.leb_spec count 0) as [Hle|Hgt]; [done|].
  intros [Hlen Htape]%generate_list_tape. split; [done|]. split; [lia|done].
Qed.

Lemma generate_random_rnokpp_n_draws_witness :
  0 < 2
  ∧ Z.of_nat
      (length [str_of_string "0000433360"; str_of_string "0000433360"]) = 2
  ∧ ∀ k, (λ _ : nat, 3) k = (λ _ : nat, 3) (6 * Z.to_nat 2 + k)%nat.
Proof.
  apply (generate_random_rnokpp_n_draws (date_of_ymd 2026 11 3) 2 (λ _, 3)
           [str_of_string "0000433360"; str_of_string "0000433360"]
           (λ _, 3)).
  vm_compute. reflexivity.
Defined.

(** X13.  A batch of [c1 + c2] is a batch of [c1] followed by a batch of
    [c2] on the draws the first has left, error for error. *)
Theorem generate_random_rnokpp_n_app (today : date) (c1 c2 : Z) (t : tape) :
  0 < c1 →
  0 < c2 →
  generate_random_rnokpp_n today (c1 + c2) t
  = (l1 ← generate_random_rnokpp_n today c1;
     l2 ← generate_random_rnokpp_n today c2;
     mret (l1 ++ l2)) t.
Proof.
  intros H1 H2. unfold generate_random_rnokpp_n.
  destruct (Z.leb_spec (c1 + c2) 0); [lia|].
  destruct (Z.leb_spec c1 0); [lia|]. destruct (Z.leb_spec c2 0); [lia|].
  rewrite Z2Nat.inj_add by lia. apply generate_list_app.
Qed.

Lemma generate_random_rnokpp_n_app_witness :
  generate_random_rnokpp_n (date_of_ymd 2026 11 3) (1 + 2) (λ _, 3)
  = (l1 ← generate_random_rnokpp_n (date_of_ymd 2026 11 3) 1;
     l2 ← generate_random_rnokpp_n (date_of_ymd 2026 11 3) 2;
     mret (l1 ++ l2)) (λ _, 3).
Proof.
  apply (generate_random_rnokpp_n_app (date_of_ymd 2026 11 3) 1 2 (λ _, 3));
    reflexivity.
Defined.

End batches.

(** ** Printing the details *)

Section printing_details.

Lemma is_leap_spec y :
  is_leap y = true ↔ y mod 4 = 0 ∧ (y mod 100 ≠ 0 ∨ y mod 400 = 0).
Proof.
  unfold is_leap. rewrite andb_true_iff, orb_true_iff, negb_true_iff.
  rewrite !Z.eqb_eq, Z.eqb_neq. tauto.
Qed.

(** The days before a year, by the 400-, 100-, 4- and 1-year cycles. *)
Lemma days_before_year_cycles n400 n100 n4 n1 :
  0 ≤ n100 ≤ 3 → 0 ≤ n4 ≤ 24 → 0 ≤ n1 ≤ 3 →
  days_before_year (n400 * 400 + 1 + n100 * 100 + n4 * 4 + n1)
  = 146097 * n400 + 36524 * n100 + 1461 * n4 + 365 * n1.
Proof.
  intros H100 H4 H1. unfold days_before_year. cbv zeta.
  Z.div_mod_to_equations. lia.
Qed.

Lemma is_leap_cycles n400 n100 n4 n1 :
  0 ≤ n100 ≤ 3 → 0 ≤ n4 ≤ 24 → 0 ≤ n1 ≤ 3 →
  is_leap (n400 * 400 + 1 + n100 * 100 + n4 * 4 + n1)
  = (n1 =? 3) && (negb (n4 =? 24) || (n100 =? 3)).
Proof.
  intros H100 H4 H1. apply eq_true_iff_eq.
  rewrite is_leap_spec, andb_true_iff, orb_true_iff, negb_true_iff.
  rewrite !Z.eqb_eq, Z.eqb_neq.
  Z.div_mod_to_equations. lia.
Qed.

(** [date.fromordinal] inverts [date.toordinal]: the year, month and day
    computed from an ordinal are those of the day with that ordinal. *)
Lemma ord2ymd_correct n :
  1 ≤ n →
  ∃ y m d, ord2ymd n = (y, m, d)
           ∧ ymd2ord y m d = n ∧ 1 ≤ m ≤ 12 ∧ 1 ≤ d ≤ 31.
Proof.
  intros Hn. unfold ord2ymd. cbv zeta.
  assert (∃ n0, n0 = n - 1 ∧ 0 ≤ n0) as (n0 & En0 & Hn0) by (eexists; split; [reflexivity|lia]).
  rewrite <- En0.
  set (n400 := n0 / 146097). set (r1 := n0 mod 146097).
  set (n100 := r1 / 36524). set (r2 := r1 mod 36524).
  set (n4 := r2 / 1461). set (r3 := r2 mod 1461).
  set (n1 := r3 / 365). set (r4 := r3 mod 365).
  assert (0 ≤ r1 < 146097 ∧ n0 = 146097 * n400 + r1) as (Hr1 & E1)
    by (unfold n400, r1; Z.div_mod_to_equations; lia).
  assert (0 ≤ n100 ≤ 4 ∧ 0 ≤ r2 < 36524 ∧ r1 = 36524 * n100 + r2) as (H100 & Hr2 & E2)
    by (unfold n100, r2; Z.div_mod_to_equations; lia).
  assert (0 ≤ n4 ≤ 24 ∧ 0 ≤ r3 < 1461 ∧ r2 = 1461 * n4 + r3) as (H4 & Hr3 & E3)
    by (unfold n4, r3; Z.div_mod_to_equations; lia).
  assert (0 ≤ n1 ≤ 4 ∧ 0 ≤ r4 < 365 ∧ r3 = 365 * n1 + r4) as (H1 & Hr4 & E4)
    by (unfold n1, r4; Z.div_mod_to_equations; lia).
  clearbody n400 r1 n100 r2 n4 r3 n1 r4.
  destruct ((n1 =? 4) || (n100 =? 4)) eqn:Hlast.
  - (* the last day of a leap year *)
    eexists _, _, _. split; [reflexivity|]. split; [|lia].
    apply orb_true_iff in Hlast. rewrite !Z.eqb_eq in Hlast.
    unfold ymd2ord, days_before_month.
    assert (is_leap (n400 * 400 + 1 + n100 * 100 + n4 * 4 + n1 - 1) = true) as ->
      by (apply is_leap_spec; Z.div_mod_to_equations; lia).
    change (nth (Z.to_nat 12) _ 0) with 334.
    change ((2 <? 12) && true) with true. cbv iota.
    unfold days_before_year. cbv zeta. Z.div_mod_to_equations. lia.
  - apply orb_false_iff in Hlast as [Hn1 Hn100]. apply Z.eqb_neq in Hn1, Hn100.
    set (L := (n1 =? 3) && (negb (n4 =? 24) || (n100 =? 3))).
    rewrite Z.shiftr_div_pow2 by lia. change (2 ^ 5) with 32.
    set (m := (r4 + 50) / 32).
    assert (m = 1 ∨ m = 2 ∨ m = 3 ∨ m = 4 ∨ m = 5 ∨ m = 6 ∨ m = 7 ∨ m = 8
            ∨ m = 9 ∨ m = 10 ∨ m = 11 ∨ m = 12) as Hm
      by (unfold m; Z.div_mod_to_equations; lia).
    assert (32 * m - 50 ≤ r4 < 32 * m - 18) as Hr4m
      by (unfold m; Z.div_mod_to_equations; lia).
    clearbody m.
    assert (∀ mm dd, 1 ≤ mm ≤ 12 →
              ymd2ord (n400 * 400 + 1 + n100 * 100 + n4 * 4 + n1) mm dd
              = n0 - r4 + nth (Z.to_nat mm) DAYS_BEFORE_MONTH 0
                + (if (2 <? mm) && L then 1 else 0) + dd) as Hymd.
    { intros mm dd Hmm. unfold ymd2ord, days_before_month.
      rewrite days_before_year_cycles, is_leap_cycles by lia. fold L.
      unfold DAYS_BEFORE_MONTH. lia. }
    clearbody L.
    assert (n0 = n - 1 → n0 - r4 = n - 1 - r4) as Hn0r by lia.
    destruct Hm as [-> | [-> | [-> | [-> | [-> | [-> | [-> | [-> | [-> | [-> | [-> | ->]]]]]]]]]]];
      destruct L; simpl;
      match goal with |- context [r4 <? ?p] => destruct (Z.ltb_spec r4 p) end;
      (eexists _, _, _; split; [reflexivity|]);
      rewrite Hymd by lia; simpl; lia.
Qed.

Lemma days_before_month_bounds y m :
  1 ≤ m ≤ 12 → 0 ≤ days_before_month y m ≤ 335.
Proof.
  intros Hm. unfold days_before_month.
  assert (m = 1 ∨ m = 2 ∨ m = 3 ∨ m = 4 ∨ m = 5 ∨ m = 6 ∨ m = 7 ∨ m = 8
          ∨ m = 9 ∨ m = 10 ∨ m = 11 ∨ m = 12)
    as [-> | [-> | [-> | [-> | [-> | [-> | [-> | [-> | [-> | [-> | [-> | ->]]]]]]]]]]]
    by lia; destruct (is_leap y); simpl; lia.
Qed.

Lemma two_digits k :
  0 ≤ k ≤ 99 → zero_pad 2 (dec_of_nonneg k) = chars [k / 10; k mod 10].
Proof.
  intros Hk. unfold dec_of_nonneg, zero_pad.
  destruct (Z_lt_le_dec k 10) as [H1|H1].
  - rewrite dec_digits_last by lia. cbn. unfold chars. cbn.
    repeat f_equal; Z.div_mod_to_equations; lia.
  - destruct (fuel_enough k 1) as [fuel ->];
      [change (2 ^ Z.of_nat 1) with 2; lia|]. cbn [Nat.add].
    rewrite dec_digits_step by lia.
    rewrite dec_digits_last by (Z.div_mod_to_equations; lia). done.
Qed.

Lemma four_digits y :
  1000 ≤ y ≤ 9999 →
  dec_of_nonneg y = chars [y / 1000; y / 100 mod 10; y / 10 mod 10; y mod 10].
Proof.
  intros Hy. unfold dec_of_nonneg.
  assert (y / 10 / 10 = y / 100 ∧ y / 10 / 10 / 10 = y / 1000) as (E2 & E3)
    by (rewrite !Z.div_div by lia; done).
  destruct (fuel_enough y 3) as [fuel ->];
    [change (2 ^ Z.of_nat 3) with 8; lia|]. cbn [Nat.add].
  rewrite !dec_digits_step by (Z.div_mod_to_equations; lia).
  rewrite dec_digits_last by (Z.div_mod_to_equations; lia).
  by rewrite E3, E2.
Qed.

(** From the year 1001 on a date is printed as dd.mm.yyyy, the digits of
    the day, month and year it is. *)
Lemma strftime_dmY_shape o :
  365243 ≤ o ≤ MAXORDINAL →
  ∃ y m d,
    ymd2ord y m d = o
    ∧ 1000 ≤ y ≤ 9999 ∧ 1 ≤ m ≤ 12 ∧ 1 ≤ d ≤ 31
    ∧ strftime_dmY (Date o)
      = chars [d / 10; d mod 10] ++ [46] ++ chars [m / 10; m mod 10] ++ [46]
        ++ chars [y / 1000; y / 100 mod 10; y / 10 mod 10; y mod 10].
Proof.
  intros Ho. unfold MAXORDINAL in Ho.
  destruct (ord2ymd_correct o) as (y & m & d & Hord & Hymd & Hm & Hd); [lia|].
  exists y, m, d.
  assert (1000 ≤ y ≤ 9999) as Hy.
  { pose proof (days_before_month_bounds y m Hm) as Hdbm.
    unfold ymd2ord, days_before_year in Hymd. cbv zeta in Hymd.
    Z.div_mod_to_equations. lia. }
  repeat (split; [done|]).
  unfold strftime_dmY. cbn [toordinal]. rewrite Hord.
  by rewrite !two_digits, four_digits by lia.
Qed.

Example test_Details_str :
  Details_str <$> get_details (str_of_string "3652504575")
  = Ok (str_of_string "valid, male, 01.01.2000")
  ∧ Details_str <$> get_details (str_of_string "3068208400")
    = Ok (str_of_string "valid, female, 02.01.1984")
  ∧ Details_str (mkDetails false MALE BASE_DATE) = str_of_string "invalid"
  ∧ strftime_dmY (date_of_ymd 2173 10 14) = str_of_string "14.10.2173"
  ∧ strftime_dmY FIRST_DECODED = str_of_string "31.12.1899"
  ∧ ord2ymd 735000 = (2013, 5, 12)
  ∧ ord2ymd 738000 = (2021, 7, 29)
  ∧ ord2ymd 3652059 = (9999, 12, 31)
  ∧ ord2ymd 1 = (1, 1, 1).
Proof. repeat split; vm_compute; reflexivity. Qed.

Lemma decoded_birthday_bounds s r :
  get_details s = Ok r →
  valid r = true ∧ 693595 ≤ toordinal (birthday r) ≤ 793594.
Proof.
  intros Hs.
  destruct (get_details_Ok _ _ Hs)
    as (d0 & d1 & d2 & d3 & d4 & d5 & d6 & d7 & d8 & d9 & Hp & ->).
  destruct (ten_digits _ _ Hp)
    as (? & ? & ? & ? & ? & ? & ? & ? & ? & ? & Heq & Hall).
  injection Heq as <- <- <- <- <- <- <- <- <- <-.
  split; [done|]. unfold days_after, day_count. cbn [birthday toordinal].
  rewrite BASE_DATE_ordinal. digit_bounds.
Qed.



End printing_details.

(** ** What the parser returns *)

Section parser_result.

Lemma unchars ds : (λ c, c - 48) <$> chars ds = ds.
Proof. induction ds as [|d ds IH]; cbn; [done|]. f_equal; [lia | exact IH]. Qed.

(** X15.  The parser returns on the strings of ten characters that [int]
    converts, and on nothing else; the list returned has the value of each
    character at its place, ten values from 0 to 9, and on ASCII input the
    value is the character code less 48. *)
Theorem parse_postcondition (s : str) (ds : list Z) :
  (_parse_rnokpp s = Ok ds ↔
     length s = 10%nat ∧ Forall2 (λ c d, decimal_value c = Some d) s ds)
  ∧ (_parse_rnokpp s = Ok ds →
       length ds = 10%nat
       ∧ Forall is_digit ds
       ∧ (Forall (λ c, is_ascii_digit c = true) s → ds = (λ c, c - 48) <$> s)).
Proof.
  split; [rewrite parse_Ok, scan_Ok; tauto|].
  intros [Hs Hlen]%parse_Ok.
  destruct (scan_digits _ _ Hs) as [Hlen' Hall].
  split; [congruence|]. split; [done|].
  intros Hascii. rewrite (ascii_scan _ _ Hascii Hs). by rewrite unchars.
Qed.

Lemma parse_postcondition_witness :
  length [3; 6; 5; 2; 5; 0; 4; 5; 7; 5] = 10%nat
  ∧ Forall is_digit [3; 6; 5; 2; 5; 0; 4; 5; 7; 5]
  ∧ (Forall (λ c, is_ascii_digit c = true) (str_of_string "3652504575") →
       [3; 6; 5; 2; 5; 0; 4; 5; 7; 5]
       = (λ c, c - 48) <$> str_of_string "3652504575").
Proof.
  apply (parse_postcondition (str_of_string "3652504575")
           [3; 6; 5; 2; 5; 0; 4; 5; 7; 5]).
  vm_compute. reflexivity.
Defined.

End parser_result.
